(** * crasher: a deliberate-crash test fixture

    Shallow embedding of [client/cros/crash/crasher/crasher.cc] and the
    properties of its mode selection ([PrepareBelow]), its pid hand-off
    ([SendPid]) and its entry point ([main]).

    The program talks to the operating system.  The operating system is a
    record of answers ([os]); the process state that the program threads
    through its calls is [world]: the value of [errno] and the chronological
    trace of what the process did (writes to [cerr], system calls with their
    arguments and return values).  A computation either returns, or ends the
    process through [exit], or is killed by a fault. *)

From Stdlib Require Import ZArith List String Ascii Bool Lia DecimalString.
From Stdlib Require Import DecimalPos DecimalZ.
Import ListNotations.
Local Open Scope string_scope.
Local Open Scope Z_scope.
Local Open Scope list_scope.

(** ** C strings and character arrays *)

Module CString.

(** The terminator ['\0']. *)
Definition NUL : ascii := Ascii.zero.

Definition is_nul (c : ascii) : bool := Ascii.eqb c NUL.

(** The line feed ['\n']. *)
Definition nl : string := String "010"%char EmptyString.

(** A [const char *] is modelled by a [string]; what C sees through the
    pointer is the part in front of the first NUL. *)
Fixpoint c_str (s : string) : string :=
  match s with
  | EmptyString => EmptyString
  | String c s' => if is_nul c then EmptyString else String c (c_str s')
  end.

Definition uchar (c : ascii) : Z := Z.of_N (N_of_ascii c).

(** [strcmp]: the difference of the first two bytes that differ, read as
    [unsigned char]; the end of a string reads as NUL. *)
Fixpoint strcmp (s1 s2 : string) : Z :=
  match s1, s2 with
  | EmptyString, EmptyString => 0
  | EmptyString, String c2 _ => 0 - uchar c2
  | String c1 _, EmptyString => uchar c1 - 0
  | String c1 r1, String c2 r2 =>
      if negb (Ascii.eqb c1 c2) then uchar c1 - uchar c2
      else if is_nul c1 then 0
      else strcmp r1 r2
  end.

(** [strncpy dest src n] writes exactly [n] bytes at the start of [dest]:
    the bytes of [src] up to its terminator, then NULs.  Writing past the
    end of the array [dest] is reported as [None]. *)
Fixpoint strncpy (dest : list ascii) (src : string) (n : nat) {struct n}
  : option (list ascii) :=
  match n with
  | O => Some dest
  | S n' =>
      match dest with
      | [] => None
      | _ :: dest' =>
          match src with
          | EmptyString =>
              option_map (cons NUL) (strncpy dest' EmptyString n')
          | String c src' =>
              if is_nul c
              then option_map (cons NUL) (strncpy dest' EmptyString n')
              else option_map (cons c) (strncpy dest' src' n')
          end
      end
  end.

(** [operator<<(int)]: signed decimal. *)
Definition show_int (z : Z) : string := NilZero.string_of_int (Z.to_int z).

End CString.
Import CString.

(** ** Socket data *)

(** [struct sockaddr_un]: the family and the [sun_path] character array. *)
Record sockaddr_un := mk_sockaddr_un {
  sun_family : Z;
  sun_path : list ascii
}.

(** [struct iovec]: [iov_base] is modelled by the bytes it points to. *)
Record iovec := mk_iovec {
  iov_base : list ascii;
  iov_len : Z
}.

(** [struct msghdr], the four fields the program initialises; [msg_name] is
    [None] for [NULL], and [msg_iov] is the array the pointer designates. *)
Record msghdr := mk_msghdr {
  msg_name : option sockaddr_un;
  msg_namelen : Z;
  msg_iov : list iovec;
  msg_iovlen : Z
}.

Definition AF_UNIX : Z := 1.
Definition SOCK_DGRAM : Z := 2.

(** The bytes of the datagram a [sendmsg] of [msg] carries. *)
Definition datagram_of (msg : msghdr) : list ascii :=
  List.concat (map (fun v => firstn (Z.to_nat (iov_len v)) (iov_base v))
              (firstn (Z.to_nat (msg_iovlen msg)) (msg_iov msg))).

(** ** The operating system *)

(** What a system call answers: a non-negative value, or an error number
    (the call then returns -1 and stores the number in [errno]). *)
Inductive sysret :=
| SysOk (v : N)
| SysErr (errno : Z).

Record os := mk_os {
  os_pid : Z;
  (** [sizeof(address.sun_path)]; an array has at least one element *)
  os_sizeof_sun_path : positive;
  os_strerror : Z -> string;
  os_socket : Z -> Z -> Z -> sysret;
  os_connect : Z -> sockaddr_un -> Z -> sysret;
  os_sendmsg : Z -> msghdr -> Z -> sysret
}.

(** ** Process state and the trace of what the process did *)

Inductive event :=
| EvStderr (text : string)
| EvSocket (domain type protocol : Z) (ret : Z)
| EvConnect (sockfd : Z) (addr : sockaddr_un) (addrlen : Z) (ret : Z)
| EvSendmsg (sockfd : Z) (msg : msghdr) (flags : Z) (ret : Z)
| EvClose (fd : Z)
| EvFrame (function : string) (n : Z).

Record world := mk_world {
  w_errno : Z;
  w_trace : list event
}.

Definition log (e : event) (w : world) : world :=
  {| w_errno := w_errno w; w_trace := w_trace w ++ [e] |}.

Definition set_errno (e : Z) (w : world) : world :=
  {| w_errno := e; w_trace := w_trace w |}.

(** How a computation ends: it returns a value, the process has called
    [exit], the process was killed by a fault signal, or the computation
    left the defined behaviour of the language. *)
Inductive outcome (A : Type) :=
| Normal (a : A)
| Exited (status : Z)
| Faulted
| Undefined.
Arguments Normal {A} a.
Arguments Exited {A} status.
Arguments Faulted {A}.
Arguments Undefined {A}.

Definition M (A : Type) : Type := world -> outcome A * world.

Definition ret {A} (a : A) : M A := fun w => (Normal a, w).

Definition bind {A B} (c : M A) (k : A -> M B) : M B :=
  fun w =>
    match c w with
    | (Normal a, w') => k a w'
    | (Exited s, w') => (Exited s, w')
    | (Faulted, w') => (Faulted, w')
    | (Undefined, w') => (Undefined, w')
    end.

Declare Scope crasher_scope.
Delimit Scope crasher_scope with crasher.
Notation "x <- c ;; k" := (bind c (fun x => k))
  (at level 61, c at next level, right associativity) : crasher_scope.
Notation "c ;; k" := (bind c (fun _ => k))
  (at level 61, right associativity) : crasher_scope.
Local Open Scope crasher_scope.

(** [exit(status)] does not return. *)
Definition exit {A} (status : Z) : M A := fun w => (Exited status, w).

Definition fault {A} : M A := fun w => (Faulted, w).

Definition undefined {A} : M A := fun w => (Undefined, w).

(** [if (c) { body }] *)
Definition when (c : bool) (body : M unit) : M unit :=
  if c then body else ret tt.

(** One statement [cerr << a << b << ...;]: the pieces are written in order;
    the trace keeps the text of the statement as one write. *)
Definition cerr (pieces : list string) : M unit :=
  fun w => (Normal tt, log (EvStderr (String.concat "" pieces)) w).

(** Reading [errno]. *)
Definition errno : M Z := fun w => (Normal (w_errno w), w).

(** A system call: the answer of the operating system becomes the C return
    value, and a failure stores its error number in [errno]. *)
Definition syscall (answer : sysret) (record : Z -> event) : M Z :=
  fun w =>
    match answer with
    | SysOk v => (Normal (Z.of_N v), log (record (Z.of_N v)) w)
    | SysErr e => (Normal (-1), log (record (-1)) (set_errno e w))
    end.

(** [argv[i]] *)
Definition arg (argv : list string) (i : nat) : string := nth i argv "".

(** ** Reading the trace *)

Definition stderr_of (t : list event) : list string :=
  flat_map (fun e => match e with EvStderr s => [s] | _ => [] end) t.

(** The datagrams that were handed to the transport: one for every
    [sendmsg] that did not fail. *)
Definition datagrams_of (t : list event) : list (list ascii) :=
  flat_map (fun e => match e with
                     | EvSendmsg _ msg _ r =>
                         if r =? -1 then [] else [datagram_of msg]
                     | _ => []
                     end) t.

(** The descriptors obtained from a successful [socket]. *)
Definition opened_of (t : list event) : list Z :=
  flat_map (fun e => match e with
                     | EvSocket _ _ _ r => if r =? -1 then [] else [r]
                     | _ => []
                     end) t.

(** The descriptors passed to [close], in order. *)
Definition closed_of (t : list event) : list Z :=
  flat_map (fun e => match e with EvClose fd => [fd] | _ => [] end) t.

(** How many times [sendmsg] was called. *)
Definition sendmsg_calls (t : list event) : nat :=
  List.length (filter (fun e => match e with
                                | EvSendmsg _ _ _ _ => true
                                | _ => false
                                end) t).




(** The stack frames entered by the recursion generator, in order. *)
Definition frames_of (t : list event) : list Z :=
  flat_map (fun e => match e with EvFrame _ n => [n] | _ => [] end) t.

(** A line that reports the process id starts with ["pid="]. *)
Definition is_pid_line (s : string) : bool := String.prefix "pid=" s.

Definition count_pid_lines (lines : list string) : nat :=
  List.length (filter is_pid_line lines).

(** ** The program *)

(** [int DefeatTailOptimizationForBomb() { return 0; }] *)
Definition DefeatTailOptimizationForBomb : M Z := ret 0.

Section Crasher.

Variable OS : os.

(** [int recbomb(int n);] is declared here and defined in another
    translation unit, as is [DefeatTailOptimizationForCrasher]. *)
Variable recbomb : Z -> M Z.
Variable DefeatTailOptimizationForCrasher : M Z.

Definition getpid : M Z := ret (os_pid OS).

Definition strerror (e : Z) : string := os_strerror OS e.

Definition socket (domain type protocol : Z) : M Z :=
  syscall (os_socket OS domain type protocol)
          (EvSocket domain type protocol).

Definition connect (sockfd : Z) (addr : sockaddr_un) (addrlen : Z) : M Z :=
  syscall (os_connect OS sockfd addr addrlen)
          (EvConnect sockfd addr addrlen).

Definition sendmsg (sockfd : Z) (msg : msghdr) (flags : Z) : M Z :=
  syscall (os_sendmsg OS sockfd msg flags)
          (EvSendmsg sockfd msg flags).

(** The return value of [close] is not looked at. *)
Definition close (fd : Z) : M unit :=
  fun w => (Normal tt, log (EvClose fd) w).

Definition sizeof_sun_path : nat := Pos.to_nat (os_sizeof_sun_path OS).

(** [sizeof(sockaddr_un)]: the two bytes of [sa_family_t], then the
    path array. *)
Definition sizeof_sockaddr_un : Z := 2 + Z.of_nat sizeof_sun_path.

(** *** [struct Socket] local to [SendPid] *)

Record Socket := mk_Socket { fd : Z }.

(** [Socket(): fd(socket(AF_UNIX, SOCK_DGRAM, 0)) {}] *)
Definition Socket_ctor : M Socket :=
  r <- socket AF_UNIX SOCK_DGRAM 0 ;;
  ret {| fd := r |}.

(** [~Socket() { if (fd != -1) close(fd); }] *)
Definition Socket_dtor (s : Socket) : M unit :=
  when (negb (fd s =? -1)) (close (fd s)).

(** A block with a local object: the destructor runs whenever the block
    is left by a [return]. *)
Definition with_local {A} (dtor : M unit) (body : M A) : M A :=
  r <- body ;;
  dtor ;;
  ret r.

(** [sockaddr_un address = { AF_UNIX };] the remaining members are
    zero-initialised. *)
Definition address_init : sockaddr_un :=
  {| sun_family := AF_UNIX; sun_path := repeat NUL sizeof_sun_path |}.

(** [strncpy(address.sun_path, socket_path, sizeof(address.sun_path) - 1);]
    [None] when the copy would leave the array. *)
Definition fill_address (address : sockaddr_un) (socket_path : string)
  : option sockaddr_un :=
  match strncpy (sun_path address) socket_path (sizeof_sun_path - 1) with
  | Some p => Some {| sun_family := sun_family address; sun_path := p |}
  | None => None
  end.

(** [char zero = '\0'; iovec data = { &zero, 1 };
    msghdr msg = { NULL, 0, &data, 1 };] *)
Definition zero : ascii := NUL.
Definition data : iovec := {| iov_base := [zero]; iov_len := 1 |}.
Definition msg : msghdr :=
  {| msg_name := None; msg_namelen := 0; msg_iov := [data]; msg_iovlen := 1 |}.

(** *** [bool SendPid(const char *socket_path)] *)
Definition SendPid (socket_path : string) : M bool :=
  sock <- Socket_ctor ;;
  with_local (Socket_dtor sock)
    (if fd sock =? -1 then
       e <- errno ;;
       cerr ["socket() failed: "; strerror e; nl] ;;
       ret false
     else
       match fill_address address_init socket_path with
       | None => undefined
       | Some address =>
           r <- connect (fd sock) address sizeof_sockaddr_un ;;
           if r =? -1 then
             e <- errno ;;
             cerr ["connect() failed: "; strerror e; nl] ;;
             ret false
           else
             r <- sendmsg (fd sock) msg 0 ;;
             if r =? -1 then
               e <- errno ;;
               cerr ["sendmsg() failed: "; strerror e; nl] ;;
               ret false
             else
               ret true
       end).

(** *** [void PrepareBelow(int argc, char *argv[])] *)
Definition PrepareBelow (argc : Z) (argv : list string) : M unit :=
  pid <- getpid ;;
  cerr ["pid="; show_int pid; nl] ;;
  when ((argc =? 2) && (strcmp (arg argv 1) "--nocrash" =? 0))
    (cerr [("Doing normal exit" ++ nl)%string] ;;
     exit 0) ;;
  when ((argc =? 3) && (strcmp (arg argv 1) "--sendpid" =? 0))
    (ok <- SendPid (arg argv 2) ;;
     when (negb ok) (exit 0)) ;;
  cerr [("Crashing as requested." ++ nl)%string].

(** What [main] does once [PrepareBelow] has returned:
    [return recbomb(16) + DefeatTailOptimizationForCrasher();]
    The language leaves the order of the two calls open; they are taken
    from left to right.  The sum is that of two [int]s; no property below
    depends on its value. *)
Definition crash : M Z :=
  r <- recbomb 16 ;;
  d <- DefeatTailOptimizationForCrasher ;;
  ret (r + d).

(** *** [int main(int argc, char *argv[])] *)
Definition main (argc : Z) (argv : list string) : M Z :=
  PrepareBelow argc argv ;;
  crash.

End Crasher.

(** ** What the operating system answers to the calls of [SendPid] *)

Section Handoff.

Variable OS : os.

(** The first [n] bytes of the C string [path]. *)
Definition truncated (path : string) (n : nat) : list ascii :=
  firstn n (list_ascii_of_string (c_str path)).

(** The address [SendPid] passes to [connect]: the path cut to one byte
    less than the array, the rest of the array NUL. *)
Definition address_for (path : string) : sockaddr_un :=
  let p := truncated path (sizeof_sun_path OS - 1) in
  {| sun_family := AF_UNIX;
     sun_path := p ++ repeat NUL (sizeof_sun_path OS - List.length p) |}.

(** Socket creation fails with error number [e]. *)
Definition socket_fails (e : Z) : Prop :=
  os_socket OS AF_UNIX SOCK_DGRAM 0 = SysErr e.

(** Socket creation gives [fd]; connecting it to [path] fails with [e]. *)
Definition connect_fails (path : string) (fd : N) (e : Z) : Prop :=
  os_socket OS AF_UNIX SOCK_DGRAM 0 = SysOk fd /\
  os_connect OS (Z.of_N fd) (address_for path) (sizeof_sockaddr_un OS)
    = SysErr e.

(** Socket creation and connect succeed; the send fails with [e]. *)
Definition send_fails (path : string) (fd c : N) (e : Z) : Prop :=
  os_socket OS AF_UNIX SOCK_DGRAM 0 = SysOk fd /\
  os_connect OS (Z.of_N fd) (address_for path) (sizeof_sockaddr_un OS)
    = SysOk c /\
  os_sendmsg OS (Z.of_N fd) msg 0 = SysErr e.

(** Socket creation, connect and send all succeed. *)
Definition all_succeed (path : string) (fd c n : N) : Prop :=
  os_socket OS AF_UNIX SOCK_DGRAM 0 = SysOk fd /\
  os_connect OS (Z.of_N fd) (address_for path) (sizeof_sockaddr_un OS)
    = SysOk c /\
  os_sendmsg OS (Z.of_N fd) msg 0 = SysOk n.

(** One of the three calls fails, the error number being [e]. *)
Definition some_call_fails (path : string) (e : Z) : Prop :=
  socket_fails e \/
  (exists fd, connect_fails path fd e) \/
  (exists fd c, send_fails path fd c e).

(** The diagnostic line for a failed call. *)
Definition failure_line (call : string) (e : Z) : string :=
  (call ++ " failed: " ++ os_strerror OS e ++ nl)%string.

(** The line that reports the process id. *)
Definition pid_line : string :=
  ("pid=" ++ show_int (os_pid OS) ++ nl)%string.

Definition crashing_line : string := ("Crashing as requested." ++ nl)%string.

Definition normal_exit_line : string := ("Doing normal exit" ++ nl)%string.

End Handoff.

(** ** The recursion generator *)

Definition enter_frame (function : string) (n : Z) : M unit :=
  fun w => (Normal tt, log (EvFrame function n) w).

(** Modelled from the spec: the body of [recbomb], which crasher.cc only
    declares ([int recbomb(int n);]).  The spec (4.3) has it call itself in a
    simple countdown from the starting depth to zero, every call keeping a
    stack frame of its own, the process being terminated by a fault signal
    once the countdown is complete instead of returning.  Each level adds
    the result of [DefeatTailOptimizationForBomb], the function crasher.cc
    defines for that use. *)
Fixpoint recbomb_countdown (n : nat) : M Z :=
  enter_frame "recbomb" (Z.of_nat n) ;;
  match n with
  | O => fault
  | S k =>
      r <- recbomb_countdown k ;;
      d <- DefeatTailOptimizationForBomb ;;
      ret (r + d)
  end.

(** Modelled from the spec: [recbomb] at an [int] starting depth, the
    countdown of section 4.3 from that depth. *)
Definition recbomb_spec (n : Z) : M Z := recbomb_countdown (Z.to_nat n).

(** ** Sample environments *)

Module Sample.

Definition ENOENT : Z := 2.
Definition EMFILE : Z := 24.
Definition ECONNREFUSED : Z := 111.

Definition describe (e : Z) : string :=
  if e =? ENOENT then "No such file or directory"
  else if e =? EMFILE then "Too many open files"
  else if e =? ECONNREFUSED then "Connection refused"
  else "Unknown error".

(** A listener is bound to the path: every call succeeds. *)
Definition listening : os :=
  {| os_pid := 4711;
     os_sizeof_sun_path := 108;
     os_strerror := describe;
     os_socket := fun _ _ _ => SysOk 3;
     os_connect := fun _ _ _ => SysOk 0;
     os_sendmsg := fun _ _ _ => SysOk 1 |}.

(** The descriptor table is full. *)
Definition no_descriptor : os :=
  {| os_pid := 4711;
     os_sizeof_sun_path := 108;
     os_strerror := describe;
     os_socket := fun _ _ _ => SysErr EMFILE;
     os_connect := fun _ _ _ => SysOk 0;
     os_sendmsg := fun _ _ _ => SysOk 1 |}.

(** Nothing is bound to the path. *)
Definition no_listener : os :=
  {| os_pid := 4711;
     os_sizeof_sun_path := 108;
     os_strerror := describe;
     os_socket := fun _ _ _ => SysOk 3;
     os_connect := fun _ _ _ => SysErr ENOENT;
     os_sendmsg := fun _ _ _ => SysOk 1 |}.

(** The listener went away between [connect] and [sendmsg]. *)
Definition listener_gone : os :=
  {| os_pid := 4711;
     os_sizeof_sun_path := 108;
     os_strerror := describe;
     os_socket := fun _ _ _ => SysOk 3;
     os_connect := fun _ _ _ => SysOk 0;
     os_sendmsg := fun _ _ _ => SysErr ECONNREFUSED |}.

(** A platform with a four-byte path array, to watch the truncation. *)
Definition tiny : os :=
  {| os_pid := 1;
     os_sizeof_sun_path := 4;
     os_strerror := describe;
     os_socket := fun _ _ _ => SysOk 3;
     os_connect := fun _ _ _ => SysOk 0;
     os_sendmsg := fun _ _ _ => SysOk 1 |}.

Definition start : world := {| w_errno := 0; w_trace := [] |}.

(** An instance of the external [DefeatTailOptimizationForCrasher] for the
    sample runs: it returns 0, as [DefeatTailOptimizationForBomb] does. *)
Definition DefeatTailOptimizationForCrasher : M Z := ret 0.

(** The whole program with the recursion generator of the spec. *)
Definition run (OS : os) (argv : list string) : outcome Z * world :=
  main OS recbomb_spec DefeatTailOptimizationForCrasher
       (Z.of_nat (List.length argv)) argv start.

End Sample.

(** ** The ways through [PrepareBelow] *)

(** The outcome of [PrepareBelow], the value of [errno] it leaves and what
    it adds to the trace, from the arguments, the answers of the operating
    system and the value of [errno] at the start. *)
Inductive PrepareBelow_path (OS : os) (argc : Z) (argv : list string)
          (errno0 : Z) : outcome unit -> Z -> list event -> Prop :=
| path_nocrash :
    argc = 2 -> c_str (arg argv 1) = "--nocrash" ->
    PrepareBelow_path OS argc argv errno0 (Exited 0) errno0
      [EvStderr (pid_line OS); EvStderr normal_exit_line]
| path_no_mode :
    ~ (argc = 2 /\ c_str (arg argv 1) = "--nocrash") ->
    ~ (argc = 3 /\ c_str (arg argv 1) = "--sendpid") ->
    PrepareBelow_path OS argc argv errno0 (Normal tt) errno0
      [EvStderr (pid_line OS); EvStderr crashing_line]
| path_sent (sfd c n : N) :
    argc = 3 -> c_str (arg argv 1) = "--sendpid" ->
    all_succeed OS (arg argv 2) sfd c n ->
    PrepareBelow_path OS argc argv errno0 (Normal tt) errno0
      [EvStderr (pid_line OS);
       EvSocket AF_UNIX SOCK_DGRAM 0 (Z.of_N sfd);
       EvConnect (Z.of_N sfd) (address_for OS (arg argv 2))
                 (sizeof_sockaddr_un OS) (Z.of_N c);
       EvSendmsg (Z.of_N sfd) msg 0 (Z.of_N n);
       EvClose (Z.of_N sfd);
       EvStderr crashing_line]
| path_no_socket (e : Z) :
    argc = 3 -> c_str (arg argv 1) = "--sendpid" ->
    socket_fails OS e ->
    PrepareBelow_path OS argc argv errno0 (Exited 0) e
      [EvStderr (pid_line OS);
       EvSocket AF_UNIX SOCK_DGRAM 0 (-1);
       EvStderr (failure_line OS "socket()" e)]
| path_no_connect (sfd : N) (e : Z) :
    argc = 3 -> c_str (arg argv 1) = "--sendpid" ->
    connect_fails OS (arg argv 2) sfd e ->
    PrepareBelow_path OS argc argv errno0 (Exited 0) e
      [EvStderr (pid_line OS);
       EvSocket AF_UNIX SOCK_DGRAM 0 (Z.of_N sfd);
       EvConnect (Z.of_N sfd) (address_for OS (arg argv 2))
                 (sizeof_sockaddr_un OS) (-1);
       EvStderr (failure_line OS "connect()" e);
       EvClose (Z.of_N sfd)]
| path_no_send (sfd c : N) (e : Z) :
    argc = 3 -> c_str (arg argv 1) = "--sendpid" ->
    send_fails OS (arg argv 2) sfd c e ->
    PrepareBelow_path OS argc argv errno0 (Exited 0) e
      [EvStderr (pid_line OS);
       EvSocket AF_UNIX SOCK_DGRAM 0 (Z.of_N sfd);
       EvConnect (Z.of_N sfd) (address_for OS (arg argv 2))
                 (sizeof_sockaddr_un OS) (Z.of_N c);
       EvSendmsg (Z.of_N sfd) msg 0 (-1);
       EvStderr (failure_line OS "sendmsg()" e);
       EvClose (Z.of_N sfd)].

(** * Properties *)

(** ** C strings *)

Lemma is_nul_true (c : ascii) : is_nul c = true <-> c = NUL.
Proof. unfold is_nul. apply Ascii.eqb_eq. Qed.

Lemma is_nul_false (c : ascii) : is_nul c = false <-> c <> NUL.
Proof. unfold is_nul. apply Ascii.eqb_neq. Qed.

Lemma uchar_inj (a b : ascii) : uchar a = uchar b -> a = b.
Proof.
  unfold uchar. intros H. apply N2Z.inj in H.
  rewrite <- (ascii_N_embedding a), <- (ascii_N_embedding b).
  now rewrite H.
Qed.

Lemma uchar_zero (c : ascii) : uchar c = 0 <-> c = NUL.
Proof.
  split.
  - intros H. apply uchar_inj. exact H.
  - intros ->. reflexivity.
Qed.

(** [strcmp] answers 0 exactly when the two C strings are the same. *)
Lemma strcmp_zero_iff (a b : string) :
  strcmp a b = 0 <-> c_str a = c_str b.
Proof.
  revert b. induction a as [|c1 r1 IH]; intros [|c2 r2]; simpl.
  - tauto.
  - destruct (is_nul c2) eqn:E.
    + apply is_nul_true in E. subst c2. split; reflexivity.
    + split; [|discriminate].
      intros H. apply is_nul_false in E. exfalso. apply E.
      apply uchar_zero. lia.
  - destruct (is_nul c1) eqn:E.
    + apply is_nul_true in E. subst c1. split; reflexivity.
    + split; [|discriminate].
      intros H. apply is_nul_false in E. exfalso. apply E.
      apply uchar_zero. lia.
  - destruct (Ascii.eqb_spec c1 c2) as [->|Hne]; simpl.
    + destruct (is_nul c2) eqn:E; [tauto|].
      rewrite IH. split; [intros ->; reflexivity | now intros [=]].
    + split.
      * intros H. exfalso. apply Hne. apply uchar_inj. lia.
      * destruct (is_nul c1) eqn:E1, (is_nul c2) eqn:E2; try discriminate.
        -- apply is_nul_true in E1, E2. congruence.
        -- intros [= H _]. contradiction.
  Qed.

Lemma strcmp_nonzero_eqb (a b : string) :
  c_str a <> c_str b -> (strcmp a b =? 0) = false.
Proof.
  intros H. apply Z.eqb_neq. intros E. apply H. now apply strcmp_zero_iff.
Qed.

Lemma truncated_length (path : string) (n : nat) :
  (List.length (truncated path n) <= n)%nat.
Proof. unfold truncated. apply firstn_le_length. Qed.

(** [strncpy] inside the array: the first [n] bytes become the start of the
    C string padded with NULs, the rest of the array is untouched. *)
Lemma strncpy_in_bounds (n : nat) :
  forall (dest : list ascii) (src : string),
    (n <= List.length dest)%nat ->
    strncpy dest src n =
      Some (truncated src n
            ++ repeat NUL (n - List.length (truncated src n))
            ++ skipn n dest).
Proof.
  induction n as [|n IH]; intros dest src Hn.
  - reflexivity.
  - destruct dest as [|d dest]; [simpl in Hn; lia|].
    simpl in Hn. apply le_S_n in Hn.
    assert (Hpad : strncpy dest EmptyString n
                   = Some (repeat NUL n ++ skipn n dest)).
    { rewrite (IH dest EmptyString Hn). unfold truncated. simpl.
      rewrite firstn_nil. simpl. now rewrite Nat.sub_0_r. }
    destruct src as [|c src]; simpl.
    + rewrite Hpad. reflexivity.
    + destruct (is_nul c) eqn:E.
      * rewrite Hpad. unfold truncated. simpl. rewrite E. reflexivity.
      * rewrite (IH dest src Hn). unfold truncated. simpl. rewrite E.
        reflexivity.
Qed.

(** [strncpy] past the end of the array is a write out of bounds. *)
Lemma strncpy_out_of_bounds (n : nat) :
  forall (dest : list ascii) (src : string),
    (List.length dest < n)%nat -> strncpy dest src n = None.
Proof.
  induction n as [|n IH]; intros dest src Hn; [lia|].
  destruct dest as [|d dest]; [reflexivity|].
  simpl in Hn. apply Nat.succ_lt_mono in Hn.
  destruct src as [|c src]; simpl.
  - now rewrite IH.
  - destruct (is_nul c); now rewrite IH.
Qed.

(** ** Running [SendPid] *)

Lemma fd_is_not_minus_one (v : N) : (Z.of_N v =? -1) = false.
Proof. apply Z.eqb_neq. lia. Qed.

Lemma skipn_repeat_nul (n m : nat) :
  skipn n (repeat NUL m) = repeat NUL (m - n).
Proof.
  revert m. induction n as [|n IH]; intros m.
  - now rewrite Nat.sub_0_r.
  - destruct m as [|m]; [reflexivity|]. simpl. apply IH.
Qed.

Ltac step_monad :=
  repeat (progress
            (unfold with_local, Socket_ctor, Socket_dtor, socket, connect,
               sendmsg, close, syscall, getpid, bind, ret, when, cerr, errno,
               exit, undefined));
  cbv beta iota.

Ltac tidy_trace :=
  unfold log, set_errno; cbn [w_errno w_trace];
  rewrite <- ?app_assoc; cbn [app].

Section SendPidRuns.

Variable OS : os.

Lemma sizeof_sun_path_pos : (0 < sizeof_sun_path OS)%nat.
Proof. unfold sizeof_sun_path. apply Pos2Nat.is_pos. Qed.

(** The copy into the zero-initialised address stays inside the array and
    gives [address_for]. *)
Lemma fill_address_init (path : string) :
  fill_address OS (address_init OS) path = Some (address_for OS path).
Proof.
  pose proof sizeof_sun_path_pos as Hpos.
  unfold fill_address, address_init, address_for. cbn [sun_path sun_family].
  rewrite strncpy_in_bounds by (rewrite repeat_length; lia).
  pose proof (truncated_length path (sizeof_sun_path OS - 1)) as Hlen.
  set (p := truncated path (sizeof_sun_path OS - 1)) in *.
  do 2 f_equal. f_equal.
  rewrite skipn_repeat_nul.
  rewrite <- repeat_app. f_equal. lia.
Qed.

Lemma SendPid_all_succeed (path : string) (w : world) (sfd c n : N) :
  all_succeed OS path sfd c n ->
  SendPid OS path w =
    (Normal true,
     {| w_errno := w_errno w;
        w_trace := w_trace w ++
          [EvSocket AF_UNIX SOCK_DGRAM 0 (Z.of_N sfd);
           EvConnect (Z.of_N sfd) (address_for OS path)
                     (sizeof_sockaddr_un OS) (Z.of_N c);
           EvSendmsg (Z.of_N sfd) msg 0 (Z.of_N n);
           EvClose (Z.of_N sfd)] |}).
Proof.
  intros (Hs & Hc & Hm).
  unfold SendPid. step_monad. rewrite Hs. cbn [fd].
  rewrite fd_is_not_minus_one, fill_address_init, Hc.
  rewrite fd_is_not_minus_one, Hm, fd_is_not_minus_one.
  cbn [negb]. tidy_trace. reflexivity.
Qed.

Lemma SendPid_socket_fails (path : string) (w : world) (e : Z) :
  socket_fails OS e ->
  SendPid OS path w =
    (Normal false,
     {| w_errno := e;
        w_trace := w_trace w ++
          [EvSocket AF_UNIX SOCK_DGRAM 0 (-1);
           EvStderr (failure_line OS "socket()" e)] |}).
Proof.
  intros Hs. unfold SendPid. step_monad. rewrite Hs. cbn [fd].
  cbn [Z.eqb Pos.eqb negb]. tidy_trace. reflexivity.
Qed.

Lemma SendPid_connect_fails (path : string) (w : world) (sfd : N) (e : Z) :
  connect_fails OS path sfd e ->
  SendPid OS path w =
    (Normal false,
     {| w_errno := e;
        w_trace := w_trace w ++
          [EvSocket AF_UNIX SOCK_DGRAM 0 (Z.of_N sfd);
           EvConnect (Z.of_N sfd) (address_for OS path)
                     (sizeof_sockaddr_un OS) (-1);
           EvStderr (failure_line OS "connect()" e);
           EvClose (Z.of_N sfd)] |}).
Proof.
  intros (Hs & Hc). unfold SendPid. step_monad. rewrite Hs. cbn [fd].
  rewrite fd_is_not_minus_one, fill_address_init, Hc.
  cbn [Z.eqb Pos.eqb negb]. tidy_trace. reflexivity.
Qed.

Lemma SendPid_send_fails (path : string) (w : world) (sfd c : N) (e : Z) :
  send_fails OS path sfd c e ->
  SendPid OS path w =
    (Normal false,
     {| w_errno := e;
        w_trace := w_trace w ++
          [EvSocket AF_UNIX SOCK_DGRAM 0 (Z.of_N sfd);
           EvConnect (Z.of_N sfd) (address_for OS path)
                     (sizeof_sockaddr_un OS) (Z.of_N c);
           EvSendmsg (Z.of_N sfd) msg 0 (-1);
           EvStderr (failure_line OS "sendmsg()" e);
           EvClose (Z.of_N sfd)] |}).
Proof.
  intros (Hs & Hc & Hm). unfold SendPid. step_monad. rewrite Hs. cbn [fd].
  rewrite fd_is_not_minus_one, fill_address_init, Hc.
  rewrite fd_is_not_minus_one, Hm.
  cbn [Z.eqb Pos.eqb negb]. tidy_trace. reflexivity.
Qed.

(** The answers of the operating system fall in exactly one of the four
    cases. *)
Lemma handoff_cases (path : string) :
  (exists sfd c n, all_succeed OS path sfd c n) \/
  (exists e, some_call_fails OS path e).
Proof.
  unfold all_succeed, some_call_fails, socket_fails, connect_fails,
    send_fails.
  destruct (os_socket OS AF_UNIX SOCK_DGRAM 0) as [sfd|e] eqn:Hs.
  - destruct (os_connect OS (Z.of_N sfd) (address_for OS path)
                (sizeof_sockaddr_un OS)) as [c|e] eqn:Hc.
    + destruct (os_sendmsg OS (Z.of_N sfd) msg 0) as [n|e] eqn:Hm.
      * left. exists sfd, c, n. auto.
      * right. exists e. right. right. exists sfd, c. auto.
    + right. exists e. right. left. exists sfd. auto.
  - right. exists e. left. reflexivity.
Qed.

End SendPidRuns.

(** ** Running [PrepareBelow] and [main] *)

Section ModeSelection.

Variable OS : os.

(** [--nocrash] as the only argument. *)
Lemma PrepareBelow_nocrash (argc : Z) (argv : list string) (w : world) :
  argc = 2 -> c_str (arg argv 1) = "--nocrash" ->
  PrepareBelow OS argc argv w =
    (Exited 0,
     log (EvStderr normal_exit_line) (log (EvStderr (pid_line OS)) w)).
Proof.
  intros -> Harg. unfold PrepareBelow. step_monad.
  assert (E : strcmp (arg argv 1) "--nocrash" = 0)
    by (apply strcmp_zero_iff; exact Harg).
  rewrite E. reflexivity.
Qed.

(** [--sendpid <path>]: what happens next is decided by [SendPid]. *)
Lemma PrepareBelow_sendpid (argc : Z) (argv : list string) (w : world) :
  argc = 3 -> c_str (arg argv 1) = "--sendpid" ->
  PrepareBelow OS argc argv w =
    match SendPid OS (arg argv 2) (log (EvStderr (pid_line OS)) w) with
    | (Normal true, w1) => (Normal tt, log (EvStderr crashing_line) w1)
    | (Normal false, w1) => (Exited 0, w1)
    | (Exited s, w1) => (Exited s, w1)
    | (Faulted, w1) => (Faulted, w1)
    | (Undefined, w1) => (Undefined, w1)
    end.
Proof.
  intros -> Harg. unfold PrepareBelow. step_monad.
  assert (E : strcmp (arg argv 1) "--sendpid" = 0)
    by (apply strcmp_zero_iff; exact Harg).
  rewrite E. cbn [Z.eqb Pos.eqb andb].
  change (String.concat "" ["pid="; show_int (os_pid OS); nl])
    with (pid_line OS).
  destruct (SendPid OS (arg argv 2) (log (EvStderr (pid_line OS)) w))
    as [[[|]| | |] w1]; reflexivity.
Qed.

(** Neither mode matches. *)
Lemma PrepareBelow_neither (argc : Z) (argv : list string) (w : world) :
  (argc =? 2) && (strcmp (arg argv 1) "--nocrash" =? 0) = false ->
  (argc =? 3) && (strcmp (arg argv 1) "--sendpid" =? 0) = false ->
  PrepareBelow OS argc argv w =
    (Normal tt,
     log (EvStderr crashing_line) (log (EvStderr (pid_line OS)) w)).
Proof.
  intros H1 H2. unfold PrepareBelow. step_monad. rewrite H1, H2.
  reflexivity.
Qed.

(** [main] is [PrepareBelow] followed, when it returns, by the call of the
    recursion generator. *)
Lemma main_after_PrepareBelow
      (recbomb : Z -> M Z) (Defeat : M Z)
      (argc : Z) (argv : list string) (w : world) :
  main OS recbomb Defeat argc argv w =
    match PrepareBelow OS argc argv w with
    | (Normal _, w') => crash recbomb Defeat w'
    | (Exited s, w') => (Exited s, w')
    | (Faulted, w') => (Faulted, w')
    | (Undefined, w') => (Undefined, w')
    end.
Proof. reflexivity. Qed.

End ModeSelection.

(** The countdown of the recursion generator: [n], [n-1], ..., [0]. *)
Lemma recbomb_countdown_run (n : nat) (w : world) :
  recbomb_countdown n w =
    (Faulted,
     {| w_errno := w_errno w;
        w_trace := w_trace w
                   ++ map (fun k => EvFrame "recbomb" (Z.of_nat k))
                          (rev (seq 0 (S n))) |}).
Proof.
  revert w. induction n as [|n IH]; intros w.
  - reflexivity.
  - change (recbomb_countdown (S n) w)
      with (match recbomb_countdown n (log (EvFrame "recbomb" (Z.of_nat (S n))) w)
            with
            | (Normal r, w') =>
                (r0 <- ret r ;; d <- DefeatTailOptimizationForBomb ;;
                 ret (r0 + d)) w'
            | (Exited s, w') => (Exited s, w')
            | (Faulted, w') => (Faulted, w')
            | (Undefined, w') => (Undefined, w')
            end).
    rewrite IH. unfold log. cbn [w_errno w_trace].
    rewrite <- app_assoc. f_equal. f_equal. f_equal.
    rewrite (seq_S (S n) 0). rewrite rev_app_distr. reflexivity.
Qed.

(** ** The [--nocrash] mode *)

(** C5: with the single argument [--nocrash] the process writes the pid
    line, then the normal-exit diagnostic, and exits with status 0; it makes
    no system call and, whatever the recursion generator is, does not run
    it. *)
Theorem nocrash_exits_zero
    (OS : os) (recbomb : Z -> M Z) (Defeat : M Z)
    (prog : string) (w : world) :
  main OS recbomb Defeat 2 [prog; "--nocrash"] w =
    (Exited 0,
     {| w_errno := w_errno w;
        w_trace := w_trace w
                   ++ [EvStderr (pid_line OS); EvStderr normal_exit_line] |}).
Proof.
  rewrite main_after_PrepareBelow.
  rewrite PrepareBelow_nocrash by reflexivity.
  tidy_trace. reflexivity.
Qed.

(** ** The [--sendpid] mode *)

(** C2: when socket creation, connect and send all succeed for
    [--sendpid <path>], [PrepareBelow] does not exit: after the hand-off it
    writes "Crashing as requested." and returns, and [main] goes on with the
    call [recbomb(16)]. *)
Theorem sendpid_success_falls_through
    (OS : os) (recbomb : Z -> M Z) (Defeat : M Z)
    (prog path : string) (w : world) (sfd c n : N) :
  all_succeed OS path sfd c n ->
  exists w',
    PrepareBelow OS 3 [prog; "--sendpid"; path] w = (Normal tt, w') /\
    w_trace w' =
      w_trace w
      ++ [EvStderr (pid_line OS);
          EvSocket AF_UNIX SOCK_DGRAM 0 (Z.of_N sfd);
          EvConnect (Z.of_N sfd) (address_for OS path)
                    (sizeof_sockaddr_un OS) (Z.of_N c);
          EvSendmsg (Z.of_N sfd) msg 0 (Z.of_N n);
          EvClose (Z.of_N sfd);
          EvStderr crashing_line] /\
    main OS recbomb Defeat 3 [prog; "--sendpid"; path] w =
      (r <- recbomb 16 ;; d <- Defeat ;; ret (r + d)) w'.
Proof.
  intros Hok. eexists. split; [|split].
  - rewrite PrepareBelow_sendpid by reflexivity.
    cbn [arg nth]. rewrite (SendPid_all_succeed OS path _ sfd c n Hok).
    reflexivity.
  - tidy_trace. reflexivity.
  - rewrite main_after_PrepareBelow.
    rewrite PrepareBelow_sendpid by reflexivity.
    cbn [arg nth]. rewrite (SendPid_all_succeed OS path _ sfd c n Hok).
    reflexivity.
Qed.

Lemma sendpid_success_falls_through_witness :
  all_succeed Sample.listening "/tmp/crash.sock" 3 0 1 /\
  exists w',
    PrepareBelow Sample.listening 3
      ["crasher"; "--sendpid"; "/tmp/crash.sock"] Sample.start
      = (Normal tt, w') /\
    w_trace w' =
      w_trace Sample.start
      ++ [EvStderr (pid_line Sample.listening);
          EvSocket AF_UNIX SOCK_DGRAM 0 3;
          EvConnect 3 (address_for Sample.listening "/tmp/crash.sock")
                    (sizeof_sockaddr_un Sample.listening) 0;
          EvSendmsg 3 msg 0 1;
          EvClose 3;
          EvStderr crashing_line] /\
    main Sample.listening recbomb_spec Sample.DefeatTailOptimizationForCrasher
         3 ["crasher"; "--sendpid"; "/tmp/crash.sock"] Sample.start =
      (r <- recbomb_spec 16 ;;
       d <- Sample.DefeatTailOptimizationForCrasher ;;
       ret (r + d)) w'.
Proof.
  split.
  - repeat split; reflexivity.
  - apply (sendpid_success_falls_through
             Sample.listening recbomb_spec
             Sample.DefeatTailOptimizationForCrasher
             "crasher" "/tmp/crash.sock" Sample.start 3 0 1).
    repeat split; reflexivity.
Defined.

(** After a successful hand-off [PrepareBelow] returns; this is the state it
    returns in. *)
Lemma PrepareBelow_after_handoff
    (OS : os) (prog path : string) (w : world) (sfd c n : N) :
  all_succeed OS path sfd c n ->
  PrepareBelow OS 3 [prog; "--sendpid"; path] w =
    (Normal tt,
     {| w_errno := w_errno w;
        w_trace :=
          w_trace w
          ++ [EvStderr (pid_line OS);
              EvSocket AF_UNIX SOCK_DGRAM 0 (Z.of_N sfd);
              EvConnect (Z.of_N sfd) (address_for OS path)
                        (sizeof_sockaddr_un OS) (Z.of_N c);
              EvSendmsg (Z.of_N sfd) msg 0 (Z.of_N n);
              EvClose (Z.of_N sfd);
              EvStderr crashing_line] |}).
Proof.
  intros Hok. rewrite PrepareBelow_sendpid by reflexivity.
  cbn [arg nth]. rewrite (SendPid_all_succeed OS path _ sfd c n Hok).
  tidy_trace. reflexivity.
Qed.

(** C1, as the code has it: when socket creation, connect and send all
    succeed for [--sendpid <path>], [PrepareBelow] does not end the process
    (with status 0 or any other): it sends the one datagram, writes
    "Crashing as requested." and returns, and [main] then runs the crash
    path, whatever the recursion generator is. *)
Theorem sendpid_success_does_not_exit
    (OS : os) (prog path : string) (w : world) (sfd c n : N) :
  all_succeed OS path sfd c n ->
  (forall status w',
     PrepareBelow OS 3 [prog; "--sendpid"; path] w <> (Exited status, w')) /\
  exists w' evs,
    PrepareBelow OS 3 [prog; "--sendpid"; path] w = (Normal tt, w') /\
    w_trace w' = w_trace w ++ evs /\
    datagrams_of evs = [[NUL]] /\
    stderr_of evs = [pid_line OS; crashing_line] /\
    forall (recbomb : Z -> M Z) (Defeat : M Z),
      main OS recbomb Defeat 3 [prog; "--sendpid"; path] w =
        crash recbomb Defeat w'.
Proof.
  intros Hok.
  pose proof (PrepareBelow_after_handoff OS prog path w sfd c n Hok) as Hrun.
  split.
  - intros status w' E. rewrite Hrun in E. discriminate E.
  - eexists. eexists. split; [exact Hrun|]. split; [reflexivity|].
    split; [|split].
    + cbn. rewrite fd_is_not_minus_one. reflexivity.
    + reflexivity.
    + intros recbomb Defeat. rewrite main_after_PrepareBelow, Hrun.
      reflexivity.
Qed.

Lemma sendpid_success_does_not_exit_witness :
  all_succeed Sample.listening "/tmp/crash.sock" 3 0 1 /\
  ((forall status w',
      PrepareBelow Sample.listening 3
        ["crasher"; "--sendpid"; "/tmp/crash.sock"] Sample.start
        <> (Exited status, w')) /\
   exists w' evs,
     PrepareBelow Sample.listening 3
       ["crasher"; "--sendpid"; "/tmp/crash.sock"] Sample.start
       = (Normal tt, w') /\
     w_trace w' = w_trace Sample.start ++ evs /\
     datagrams_of evs = [[NUL]] /\
     stderr_of evs = [pid_line Sample.listening; crashing_line] /\
     forall (recbomb : Z -> M Z) (Defeat : M Z),
       main Sample.listening recbomb Defeat 3
            ["crasher"; "--sendpid"; "/tmp/crash.sock"] Sample.start =
         crash recbomb Defeat w').
Proof.
  split.
  - repeat split; reflexivity.
  - apply (sendpid_success_does_not_exit
             Sample.listening "crasher" "/tmp/crash.sock" Sample.start 3 0 1).
    repeat split; reflexivity.
Defined.

(** C1 as stated fails: a listener is bound to the path and all three calls
    succeed, yet [PrepareBelow] returns instead of exiting, the crash
    diagnostic is on the error stream, and the process is not one that
    exited with status 0 (with the recursion generator of the spec it ends
    in the fault, below the frames of the countdown). *)
Lemma sendpid_success_exit_counterexample :
  all_succeed Sample.listening "/tmp/crash.sock" 3 0 1 /\
  fst (PrepareBelow Sample.listening 3
         ["crasher"; "--sendpid"; "/tmp/crash.sock"] Sample.start)
    = Normal tt /\
  stderr_of (w_trace (snd (PrepareBelow Sample.listening 3
         ["crasher"; "--sendpid"; "/tmp/crash.sock"] Sample.start)))
    = [("pid=4711" ++ nl)%string; ("Crashing as requested." ++ nl)%string] /\
  ~ (exists w',
       Sample.run Sample.listening
         ["crasher"; "--sendpid"; "/tmp/crash.sock"] = (Exited 0, w') /\
       ~ In crashing_line (stderr_of (w_trace w')) /\
       frames_of (w_trace w') = []).
Proof.
  split; [repeat split; reflexivity|].
  split; [vm_compute; reflexivity|].
  split; [vm_compute; reflexivity|].
  intros (w' & Hrun & _). vm_compute in Hrun. discriminate Hrun.
Qed.

Ltac other_line H :=
  injection H as H;
  unfold pid_line, crashing_line, failure_line, normal_exit_line in H;
  simpl in H; discriminate H.

(** C3: when any of the three calls of [SendPid] fails for
    [--sendpid <path>], the process exits with status 0 from inside
    [PrepareBelow]: the error stream holds the pid line and the one
    diagnostic of the failed call, "Crashing as requested." is not written,
    and [main] never reaches the recursion generator, whatever it is. *)
Theorem sendpid_failure_exits_zero
    (OS : os) (recbomb : Z -> M Z) (Defeat : M Z)
    (prog path : string) (w : world) (e : Z) :
  some_call_fails OS path e ->
  exists w' evs call,
    PrepareBelow OS 3 [prog; "--sendpid"; path] w = (Exited 0, w') /\
    main OS recbomb Defeat 3 [prog; "--sendpid"; path] w = (Exited 0, w') /\
    w_trace w' = w_trace w ++ evs /\
    In call ["socket()"; "connect()"; "sendmsg()"]%string /\
    stderr_of evs = [pid_line OS; failure_line OS call e] /\
    datagrams_of evs = [] /\
    ~ In (EvStderr crashing_line) evs /\
    frames_of evs = [].
Proof.
  intros [Hs | [(sfd & Hc) | (sfd & c & Hm)]].
  - assert (Hrun : PrepareBelow OS 3 [prog; "--sendpid"; path] w =
             (Exited 0,
              {| w_errno := e;
                 w_trace := w_trace w
                   ++ [EvStderr (pid_line OS);
                       EvSocket AF_UNIX SOCK_DGRAM 0 (-1);
                       EvStderr (failure_line OS "socket()" e)] |})).
    { rewrite PrepareBelow_sendpid by reflexivity. cbn [arg nth].
      rewrite (SendPid_socket_fails OS path _ e Hs). tidy_trace.
      reflexivity. }
    eexists. eexists. exists "socket()"%string.
    split; [exact Hrun|].
    split; [rewrite main_after_PrepareBelow, Hrun; reflexivity|].
    split; [reflexivity|]. split; [simpl; tauto|].
    split; [reflexivity|]. split; [reflexivity|].
    split; [|reflexivity].
    intros [H|[H|[H|[]]]]; [other_line H | discriminate H | other_line H].
  - assert (Hrun : PrepareBelow OS 3 [prog; "--sendpid"; path] w =
             (Exited 0,
              {| w_errno := e;
                 w_trace := w_trace w
                   ++ [EvStderr (pid_line OS);
                       EvSocket AF_UNIX SOCK_DGRAM 0 (Z.of_N sfd);
                       EvConnect (Z.of_N sfd) (address_for OS path)
                                 (sizeof_sockaddr_un OS) (-1);
                       EvStderr (failure_line OS "connect()" e);
                       EvClose (Z.of_N sfd)] |})).
    { rewrite PrepareBelow_sendpid by reflexivity. cbn [arg nth].
      rewrite (SendPid_connect_fails OS path _ sfd e Hc). tidy_trace.
      reflexivity. }
    eexists. eexists. exists "connect()"%string.
    split; [exact Hrun|].
    split; [rewrite main_after_PrepareBelow, Hrun; reflexivity|].
    split; [reflexivity|]. split; [simpl; tauto|].
    split; [reflexivity|]. split; [reflexivity|].
    split; [|reflexivity].
    intros [H|[H|[H|[H|[H|[]]]]]];
      [other_line H | discriminate H | discriminate H | other_line H
       | discriminate H].
  - assert (Hrun : PrepareBelow OS 3 [prog; "--sendpid"; path] w =
             (Exited 0,
              {| w_errno := e;
                 w_trace := w_trace w
                   ++ [EvStderr (pid_line OS);
                       EvSocket AF_UNIX SOCK_DGRAM 0 (Z.of_N sfd);
                       EvConnect (Z.of_N sfd) (address_for OS path)
                                 (sizeof_sockaddr_un OS) (Z.of_N c);
                       EvSendmsg (Z.of_N sfd) msg 0 (-1);
                       EvStderr (failure_line OS "sendmsg()" e);
                       EvClose (Z.of_N sfd)] |})).
    { rewrite PrepareBelow_sendpid by reflexivity. cbn [arg nth].
      rewrite (SendPid_send_fails OS path _ sfd c e Hm). tidy_trace.
      reflexivity. }
    eexists. eexists. exists "sendmsg()"%string.
    split; [exact Hrun|].
    split; [rewrite main_after_PrepareBelow, Hrun; reflexivity|].
    split; [reflexivity|]. split; [simpl; tauto|].
    split; [reflexivity|]. split; [reflexivity|].
    split; [|reflexivity].
    intros [H|[H|[H|[H|[H|[H|[]]]]]]];
      [other_line H | discriminate H | discriminate H | discriminate H
       | other_line H | discriminate H].
Qed.

Lemma sendpid_failure_exits_zero_witness :
  some_call_fails Sample.no_listener "/tmp/crash.sock" Sample.ENOENT /\
  exists w' evs call,
    PrepareBelow Sample.no_listener 3
      ["crasher"; "--sendpid"; "/tmp/crash.sock"] Sample.start
      = (Exited 0, w') /\
    main Sample.no_listener recbomb_spec
         Sample.DefeatTailOptimizationForCrasher 3
         ["crasher"; "--sendpid"; "/tmp/crash.sock"] Sample.start
      = (Exited 0, w') /\
    w_trace w' = w_trace Sample.start ++ evs /\
    In call ["socket()"; "connect()"; "sendmsg()"]%string /\
    stderr_of evs =
      [pid_line Sample.no_listener;
       failure_line Sample.no_listener call Sample.ENOENT] /\
    datagrams_of evs = [] /\
    ~ In (EvStderr crashing_line) evs /\
    frames_of evs = [].
Proof.
  split.
  - right. left. exists 3%N. split; reflexivity.
  - apply (sendpid_failure_exits_zero
             Sample.no_listener recbomb_spec
             Sample.DefeatTailOptimizationForCrasher
             "crasher" "/tmp/crash.sock" Sample.start Sample.ENOENT).
    right. left. exists 3%N. split; reflexivity.
Defined.

(** ** Arguments that match neither mode *)

(** C9: the modes are matched on the argument count and on [argv[1]]
    together.  With [--sendpid] first and an argument count other than 3,
    with [--nocrash] first and an argument count other than 2, or with any
    other first argument (or none), neither branch is taken: no system call
    is made, "Crashing as requested." follows the pid line, [PrepareBelow]
    returns and [main] calls the recursion generator. *)
Theorem unmatched_arguments_reach_crash_path
    (OS : os) (recbomb : Z -> M Z) (Defeat : M Z)
    (argc : Z) (argv : list string) (w : world) :
  (c_str (arg argv 1) = "--sendpid" /\ argc <> 3) \/
  (c_str (arg argv 1) = "--nocrash" /\ argc <> 2) \/
  (c_str (arg argv 1) <> "--nocrash" /\ c_str (arg argv 1) <> "--sendpid") ->
  let w' := {| w_errno := w_errno w;
               w_trace := w_trace w
                          ++ [EvStderr (pid_line OS);
                              EvStderr crashing_line] |} in
  PrepareBelow OS argc argv w = (Normal tt, w') /\
  main OS recbomb Defeat argc argv w =
    (r <- recbomb 16 ;; d <- Defeat ;; ret (r + d)) w'.
Proof.
  intros Hmode w'.
  assert (Hrun : PrepareBelow OS argc argv w = (Normal tt, w')).
  { rewrite PrepareBelow_neither.
    - subst w'. tidy_trace. reflexivity.
    - destruct Hmode as [[Ha Hc] | [[Ha Hc] | [Hn Hs]]].
      + rewrite strcmp_nonzero_eqb, andb_false_r; [reflexivity|].
        rewrite Ha. discriminate.
      + apply Z.eqb_neq in Hc. rewrite Hc. reflexivity.
      + rewrite strcmp_nonzero_eqb, andb_false_r; [reflexivity|exact Hn].
    - destruct Hmode as [[Ha Hc] | [[Ha Hc] | [Hn Hs]]].
      + apply Z.eqb_neq in Hc. rewrite Hc. reflexivity.
      + rewrite strcmp_nonzero_eqb, andb_false_r; [reflexivity|].
        rewrite Ha. discriminate.
      + rewrite strcmp_nonzero_eqb, andb_false_r; [reflexivity|exact Hs]. }
  split; [exact Hrun|].
  rewrite main_after_PrepareBelow, Hrun. reflexivity.
Qed.

Lemma unmatched_arguments_reach_crash_path_witness :
  ((c_str (arg ["crasher"; "--sendpid"] 1) = "--sendpid" /\ 2 <> 3) \/
   (c_str (arg ["crasher"; "--sendpid"] 1) = "--nocrash" /\ 2 <> 2) \/
   (c_str (arg ["crasher"; "--sendpid"] 1) <> "--nocrash" /\
    c_str (arg ["crasher"; "--sendpid"] 1) <> "--sendpid")) /\
  let w' := {| w_errno := w_errno Sample.start;
               w_trace := w_trace Sample.start
                          ++ [EvStderr (pid_line Sample.listening);
                              EvStderr crashing_line] |} in
  PrepareBelow Sample.listening 2 ["crasher"; "--sendpid"] Sample.start
    = (Normal tt, w') /\
  main Sample.listening recbomb_spec Sample.DefeatTailOptimizationForCrasher
       2 ["crasher"; "--sendpid"] Sample.start =
    (r <- recbomb_spec 16 ;;
     d <- Sample.DefeatTailOptimizationForCrasher ;;
     ret (r + d)) w'.
Proof.
  split.
  - left. split; [reflexivity | lia].
  - apply (unmatched_arguments_reach_crash_path
             Sample.listening recbomb_spec
             Sample.DefeatTailOptimizationForCrasher
             2 ["crasher"; "--sendpid"] Sample.start).
    left. split; [reflexivity | lia].
Defined.

(** Further inputs of the same kind: an extra argument after [--nocrash],
    an unknown option, and [--sendpid] with two paths. *)
Example nocrash_with_extra_argument_crashes :
  fst (Sample.run Sample.listening ["crasher"; "--nocrash"; "x"]) = Faulted.
Proof. vm_compute. reflexivity. Qed.

Example unknown_option_crashes :
  fst (Sample.run Sample.listening ["crasher"; "--help"]) = Faulted.
Proof. vm_compute. reflexivity. Qed.

Example sendpid_with_two_paths_makes_no_call :
  w_trace (snd (PrepareBelow Sample.listening 4
                  ["crasher"; "--sendpid"; "/a"; "/b"] Sample.start))
  = [EvStderr (pid_line Sample.listening); EvStderr crashing_line].
Proof. vm_compute. reflexivity. Qed.

(** ** The depth of the recursion *)

(** C8: in the default mode the starting depth does not depend on the run.
    Whatever the operating system, the process state and the name the
    program was started under, [main] hands control to [recbomb] with the
    argument 16; and with the countdown of the spec for [recbomb], the
    frames entered are 16, 15, ..., 0 in every run, the process ending in
    the fault. *)
Theorem recursion_depth_is_fixed
    (OS1 OS2 : os) (Defeat1 Defeat2 : M Z)
    (prog1 prog2 : string) (w1 w2 : world) :
  exists w1' w2' t1 t2,
    (forall recbomb : Z -> M Z,
        main OS1 recbomb Defeat1 1 [prog1] w1 =
          (r <- recbomb 16 ;; d <- Defeat1 ;; ret (r + d)) w1' /\
        main OS2 recbomb Defeat2 1 [prog2] w2 =
          (r <- recbomb 16 ;; d <- Defeat2 ;; ret (r + d)) w2') /\
    main OS1 recbomb_spec Defeat1 1 [prog1] w1 =
      (Faulted, {| w_errno := w_errno w1; w_trace := w_trace w1 ++ t1 |}) /\
    main OS2 recbomb_spec Defeat2 1 [prog2] w2 =
      (Faulted, {| w_errno := w_errno w2; w_trace := w_trace w2 ++ t2 |}) /\
    frames_of t1 = frames_of t2 /\
    frames_of t1 = [16; 15; 14; 13; 12; 11; 10; 9; 8; 7; 6; 5; 4; 3; 2; 1; 0].
Proof.
  assert (Hpb : forall OS prog w,
             PrepareBelow OS 1 [prog] w =
               (Normal tt,
                log (EvStderr crashing_line) (log (EvStderr (pid_line OS)) w)))
    by (intros; apply PrepareBelow_neither; reflexivity).
  assert (Hmain : forall OS Defeat prog w,
             main OS recbomb_spec Defeat 1 [prog] w =
               (Faulted,
                {| w_errno := w_errno w;
                   w_trace := w_trace w
                     ++ [EvStderr (pid_line OS); EvStderr crashing_line]
                     ++ map (fun k => EvFrame "recbomb" (Z.of_nat k))
                            (rev (seq 0 17)) |})).
  { intros OS Defeat prog w. rewrite main_after_PrepareBelow, Hpb.
    unfold crash, recbomb_spec, bind.
    change (Z.to_nat 16) with 16%nat.
    rewrite recbomb_countdown_run. tidy_trace. reflexivity. }
  eexists. eexists. eexists. eexists.
  split; [|split; [apply Hmain | split; [apply Hmain | split; reflexivity]]].
  intros recbomb. rewrite !main_after_PrepareBelow, !Hpb.
  split; reflexivity.
Qed.

(** ** The contract of [SendPid] *)

Ltac same_answers :=
  unfold all_succeed, socket_fails, connect_fails, send_fails in *;
  repeat match goal with
         | H : _ /\ _ |- _ => destruct H
         | H : exists _, _ |- _ => destruct H
         end;
  repeat match goal with
         | H1 : ?x = SysOk ?a, H2 : ?x = SysOk ?b |- _ =>
             assert (a = b) by congruence; subst b; clear H2
         | H1 : ?x = SysErr ?a, H2 : ?x = SysErr ?b |- _ =>
             assert (a = b) by congruence; subst b; clear H2
         | H1 : ?x = SysOk _, H2 : ?x = SysErr _ |- _ =>
             exfalso; congruence
         end.

(** C4: [SendPid] always returns.  It returns [true] exactly when socket
    creation, connect and send all succeed, and then one datagram of the one
    byte 0 was sent by the one call of [sendmsg] and nothing was written to
    the error stream.  When one of the three calls fails it returns [false],
    the error stream holds exactly the one diagnostic of that call with the
    description of the error number the call left in [errno], no datagram
    was sent, and no call follows the failed one apart from closing the
    socket. *)
Theorem SendPid_contract (OS : os) (path : string) (w : world) :
  exists (b : bool) (w' : world) (evs : list event),
    SendPid OS path w = (Normal b, w') /\
    w_trace w' = w_trace w ++ evs /\
    (b = true <-> exists sfd c n, all_succeed OS path sfd c n) /\
    (b = true ->
       datagrams_of evs = [[NUL]] /\
       map (map uchar) (datagrams_of evs) = [[0]] /\
       sendmsg_calls evs = 1%nat /\
       stderr_of evs = []) /\
    (forall e, socket_fails OS e ->
       b = false /\ w_errno w' = e /\
       evs = [EvSocket AF_UNIX SOCK_DGRAM 0 (-1);
              EvStderr ("socket() failed: " ++ os_strerror OS e ++ nl)]) /\
    (forall sfd e, connect_fails OS path sfd e ->
       b = false /\ w_errno w' = e /\
       stderr_of evs = [("connect() failed: " ++ os_strerror OS e ++ nl)%string]
       /\ datagrams_of evs = [] /\ sendmsg_calls evs = 0%nat) /\
    (forall sfd c e, send_fails OS path sfd c e ->
       b = false /\ w_errno w' = e /\
       stderr_of evs = [("sendmsg() failed: " ++ os_strerror OS e ++ nl)%string]
       /\ datagrams_of evs = [] /\ sendmsg_calls evs = 1%nat).
Proof.
  destruct (handoff_cases OS path)
    as [(sfd & c & n & Hok)
       | (e & [Hs | [(sfd & Hc) | (sfd & c & Hm)]])].
  - exists true. eexists. eexists.
    split; [apply (SendPid_all_succeed OS path w sfd c n Hok)|].
    split; [reflexivity|].
    split; [split; [intros _; exists sfd, c, n; exact Hok | reflexivity]|].
    split.
    { intros _. cbn. rewrite fd_is_not_minus_one. repeat split. }
    split; [|split].
    + intros e' H. same_answers.
    + intros sfd' e' H. same_answers.
    + intros sfd' c' e' H. same_answers.
  - exists false. eexists. eexists.
    split; [apply (SendPid_socket_fails OS path w e Hs)|].
    split; [reflexivity|].
    split; [split; [discriminate | intros (sfd & c & n & H); same_answers]|].
    split; [discriminate|].
    split; [|split].
    + intros e' H. same_answers. repeat split.
    + intros sfd' e' H. same_answers.
    + intros sfd' c' e' H. same_answers.
  - exists false. eexists. eexists.
    split; [apply (SendPid_connect_fails OS path w sfd e Hc)|].
    split; [reflexivity|].
    split; [split; [discriminate | intros (sfd' & c & n & H); same_answers]|].
    split; [discriminate|].
    split; [|split].
    + intros e' H. same_answers.
    + intros sfd' e' H. same_answers. repeat split.
    + intros sfd' c' e' H. same_answers.
  - exists false. eexists. eexists.
    split; [apply (SendPid_send_fails OS path w sfd c e Hm)|].
    split; [reflexivity|].
    split; [split; [discriminate | intros (sfd' & c' & n & H); same_answers]|].
    split; [discriminate|].
    split; [|split].
    + intros e' H. same_answers.
    + intros sfd' e' H. same_answers.
    + intros sfd' c' e' H. same_answers. repeat split.
Qed.

(** ** The pid line *)

Lemma is_pid_line_pid_line (OS : os) : is_pid_line (pid_line OS) = true.
Proof.
  unfold is_pid_line, pid_line. simpl.
  destruct (show_int (os_pid OS) ++ nl)%string; reflexivity.
Qed.

Lemma count_pid_lines_first (OS : os) (rest : list string) :
  forallb (fun s => negb (is_pid_line s)) rest = true ->
  count_pid_lines (pid_line OS :: rest) = 1%nat.
Proof.
  intros H. unfold count_pid_lines. simpl.
  rewrite is_pid_line_pid_line. simpl. f_equal.
  induction rest as [|s rest IH]; [reflexivity|].
  simpl in H. apply andb_true_iff in H. destruct H as [Hs Hrest].
  simpl. destruct (is_pid_line s); [discriminate Hs|]. now apply IH.
Qed.

(** C6: on every path through the program (whatever the arguments and
    whatever the operating system answers) the first thing the process does
    is to write the pid line, and no later write to the error stream is a
    pid line.  [PrepareBelow] then either returns, [main] going on with the
    recursion generator, or ends the process with status 0. *)
Theorem pid_line_first_and_once
    (OS : os) (argc : Z) (argv : list string) (w : world) :
  exists (o : outcome unit) (w' : world) (rest : list event),
    PrepareBelow OS argc argv w = (o, w') /\
    w_trace w' = w_trace w ++ EvStderr (pid_line OS) :: rest /\
    is_pid_line (pid_line OS) = true /\
    count_pid_lines (stderr_of (EvStderr (pid_line OS) :: rest)) = 1%nat /\
    ((o = Normal tt /\
      forall (recbomb : Z -> M Z) (Defeat : M Z),
        main OS recbomb Defeat argc argv w = crash recbomb Defeat w') \/
     (o = Exited 0 /\
      forall (recbomb : Z -> M Z) (Defeat : M Z),
        main OS recbomb Defeat argc argv w = (Exited 0, w'))).
Proof.
  assert (Hmain : forall (o : outcome unit) (w' : world),
             PrepareBelow OS argc argv w = (o, w') ->
             (o = Normal tt \/ o = Exited 0) ->
             (o = Normal tt /\
              forall (recbomb : Z -> M Z) (Defeat : M Z),
                main OS recbomb Defeat argc argv w = crash recbomb Defeat w')
             \/
             (o = Exited 0 /\
              forall (recbomb : Z -> M Z) (Defeat : M Z),
                main OS recbomb Defeat argc argv w = (Exited 0, w'))).
  { intros o w' Hrun [-> | ->]; [left | right]; split; try reflexivity;
      intros recbomb Defeat; rewrite main_after_PrepareBelow, Hrun;
      reflexivity. }
  assert (Hshape : forall (o : outcome unit) (rest : list event) (e : Z),
             PrepareBelow OS argc argv w =
               (o, {| w_errno := e;
                      w_trace := w_trace w ++ EvStderr (pid_line OS) :: rest |})
             ->
             (o = Normal tt \/ o = Exited 0) ->
             forallb (fun s => negb (is_pid_line s)) (stderr_of rest) = true ->
             exists (o : outcome unit) (w' : world) (rest : list event),
               PrepareBelow OS argc argv w = (o, w') /\
               w_trace w' = w_trace w ++ EvStderr (pid_line OS) :: rest /\
               is_pid_line (pid_line OS) = true /\
               count_pid_lines (stderr_of (EvStderr (pid_line OS) :: rest))
                 = 1%nat /\
               ((o = Normal tt /\
                 forall (recbomb : Z -> M Z) (Defeat : M Z),
                   main OS recbomb Defeat argc argv w
                   = crash recbomb Defeat w') \/
                (o = Exited 0 /\
                 forall (recbomb : Z -> M Z) (Defeat : M Z),
                   main OS recbomb Defeat argc argv w = (Exited 0, w')))).
  { intros o rest e Hrun Ho Hrest. eexists. eexists. exists rest.
    split; [exact Hrun|]. split; [reflexivity|].
    split; [apply is_pid_line_pid_line|].
    split; [apply count_pid_lines_first; exact Hrest|].
    apply Hmain; assumption. }
  destruct ((argc =? 2) && (strcmp (arg argv 1) "--nocrash" =? 0)) eqn:E1.
  { apply andb_true_iff in E1. destruct E1 as [Hc Ha].
    apply Z.eqb_eq in Hc, Ha. apply strcmp_zero_iff in Ha.
    pose proof (PrepareBelow_nocrash OS argc argv w Hc Ha) as Hrun.
    unfold log in Hrun. cbn [w_errno w_trace] in Hrun.
    rewrite <- app_assoc in Hrun.
    apply (Hshape _ _ _ Hrun); [now right | reflexivity]. }
  destruct ((argc =? 3) && (strcmp (arg argv 1) "--sendpid" =? 0)) eqn:E2.
  { apply andb_true_iff in E2. destruct E2 as [Hc Ha].
    apply Z.eqb_eq in Hc, Ha. apply strcmp_zero_iff in Ha.
    pose proof (PrepareBelow_sendpid OS argc argv w Hc Ha) as Hrun.
    destruct (handoff_cases OS (arg argv 2))
      as [(sfd & c & n & Hok)
         | (e & [Hs | [(sfd & Hf) | (sfd & c & Hm)]])].
    - rewrite (SendPid_all_succeed OS _ _ sfd c n Hok) in Hrun.
      unfold log in Hrun. cbn [w_errno w_trace] in Hrun.
      rewrite <- !app_assoc in Hrun.
      apply (Hshape _ _ _ Hrun); [now left | reflexivity].
    - rewrite (SendPid_socket_fails OS _ _ e Hs) in Hrun.
      unfold log in Hrun. cbn [w_errno w_trace] in Hrun.
      rewrite <- !app_assoc in Hrun.
      apply (Hshape _ _ _ Hrun); [now right | reflexivity].
    - rewrite (SendPid_connect_fails OS _ _ sfd e Hf) in Hrun.
      unfold log in Hrun. cbn [w_errno w_trace] in Hrun.
      rewrite <- !app_assoc in Hrun.
      apply (Hshape _ _ _ Hrun); [now right | reflexivity].
    - rewrite (SendPid_send_fails OS _ _ sfd c e Hm) in Hrun.
      unfold log in Hrun. cbn [w_errno w_trace] in Hrun.
      rewrite <- !app_assoc in Hrun.
      apply (Hshape _ _ _ Hrun); [now right | reflexivity]. }
  pose proof (PrepareBelow_neither OS argc argv w E1 E2) as Hrun.
  unfold log in Hrun. cbn [w_errno w_trace] in Hrun.
  rewrite <- app_assoc in Hrun.
  apply (Hshape _ _ _ Hrun); [now left | reflexivity].
Qed.

(** ** The lifetime of the socket *)

(** C7: in every run of [SendPid] the descriptors closed are exactly the
    descriptors opened.  When [socket] gave a descriptor, it is closed
    once, by the last thing [SendPid] does, on the success path as on the
    connect-failure and send-failure paths; when [socket] failed, nothing
    is closed. *)
Theorem socket_closed_exactly_once (OS : os) (path : string) (w : world) :
  exists (b : bool) (w' : world) (evs : list event),
    SendPid OS path w = (Normal b, w') /\
    w_trace w' = w_trace w ++ evs /\
    closed_of evs = opened_of evs /\
    (forall sfd, os_socket OS AF_UNIX SOCK_DGRAM 0 = SysOk sfd ->
       opened_of evs = [Z.of_N sfd] /\
       closed_of evs = [Z.of_N sfd] /\
       exists before,
         evs = before ++ [EvClose (Z.of_N sfd)] /\ closed_of before = []) /\
    (forall e, os_socket OS AF_UNIX SOCK_DGRAM 0 = SysErr e ->
       opened_of evs = [] /\ closed_of evs = []).
Proof.
  destruct (handoff_cases OS path)
    as [(sfd & c & n & Hok)
       | (e & [Hs | [(sfd & Hc) | (sfd & c & Hm)]])].
  - eexists. eexists. eexists.
    split; [apply (SendPid_all_succeed OS path w sfd c n Hok)|].
    split; [reflexivity|].
    cbn. rewrite !fd_is_not_minus_one. cbn.
    split; [reflexivity|]. split.
    + intros sfd' H. same_answers. repeat split.
      eexists [_; _; _]. split; reflexivity.
    + intros e H. same_answers.
  - eexists. eexists. eexists.
    split; [apply (SendPid_socket_fails OS path w e Hs)|].
    split; [reflexivity|].
    cbn.
    split; [reflexivity|]. split.
    + intros sfd' H. same_answers.
    + intros e' H. split; reflexivity.
  - eexists. eexists. eexists.
    split; [apply (SendPid_connect_fails OS path w sfd e Hc)|].
    split; [reflexivity|].
    cbn. rewrite !fd_is_not_minus_one. cbn.
    split; [reflexivity|]. split.
    + intros sfd' H. same_answers. repeat split.
      eexists [_; _; _]. split; reflexivity.
    + intros e' H. same_answers.
  - eexists. eexists. eexists.
    split; [apply (SendPid_send_fails OS path w sfd c e Hm)|].
    split; [reflexivity|].
    cbn. rewrite !fd_is_not_minus_one. cbn.
    split; [reflexivity|]. split.
    + intros sfd' H. same_answers. repeat split.
      eexists [_; _; _; _]. split; reflexivity.
    + intros e' H. same_answers.
Qed.

(** ** The copy of the socket path *)

Lemma c_str_has_no_nul (s : string) :
  Forall (fun ch => ch <> NUL) (list_ascii_of_string (c_str s)).
Proof.
  induction s as [|ch s IH]; simpl.
  - constructor.
  - destruct (is_nul ch) eqn:E; simpl.
    + constructor.
    + constructor; [now apply is_nul_false | exact IH].
Qed.

Lemma Forall_firstn_keeps {A} (P : A -> Prop) (n : nat) (l : list A) :
  Forall P l -> Forall P (firstn n l).
Proof.
  revert l. induction n as [|n IH]; intros l H; simpl.
  - constructor.
  - destruct H; constructor; auto.
Qed.

Lemma truncated_has_no_nul (path : string) (n : nat) :
  Forall (fun ch => ch <> NUL) (truncated path n).
Proof. apply Forall_firstn_keeps, c_str_has_no_nul. Qed.

(** A character array that holds NUL-free bytes followed only by NULs reads
    as the C string of those bytes. *)
Lemma c_str_of_padded (p : list ascii) (k : nat) :
  Forall (fun ch => ch <> NUL) p ->
  c_str (string_of_list_ascii (p ++ repeat NUL k)) = string_of_list_ascii p.
Proof.
  intros H. induction H as [|ch p Hch Hp IH]; simpl.
  - destruct k; reflexivity.
  - apply is_nul_false in Hch. rewrite Hch. now rewrite IH.
Qed.

Lemma length_string_of_list_ascii (p : list ascii) :
  String.length (string_of_list_ascii p) = List.length p.
Proof. induction p as [|ch p IH]; simpl; [reflexivity | now rewrite IH]. Qed.

(** C10: whatever the socket path, and however long it is, the copy into
    the address stays inside the [sun_path] array: the array keeps its size,
    holds at most [sizeof(sun_path) - 1] bytes of the path (the path cut at
    that length), and its last byte is NUL, so what it holds is a terminated
    string; [SendPid] therefore always returns and never leaves defined
    behaviour. *)
Theorem socket_path_copy_is_bounded (OS : os) (path : string) :
  exists address : sockaddr_un,
    fill_address OS (address_init OS) path = Some address /\
    List.length (sun_path address) = sizeof_sun_path OS /\
    nth_error (sun_path address) (sizeof_sun_path OS - 1) = Some NUL /\
    c_str (string_of_list_ascii (sun_path address)) =
      string_of_list_ascii
        (firstn (sizeof_sun_path OS - 1)
                (list_ascii_of_string (c_str path))) /\
    (String.length (c_str (string_of_list_ascii (sun_path address)))
     <= sizeof_sun_path OS - 1)%nat /\
    (forall w, exists b w', SendPid OS path w = (Normal b, w')) /\
    (forall w, fst (SendPid OS path w) <> Undefined).
Proof.
  pose proof (sizeof_sun_path_pos OS) as Hpos.
  pose proof (truncated_length path (sizeof_sun_path OS - 1)) as Hlen.
  pose proof (truncated_has_no_nul path (sizeof_sun_path OS - 1)) as Hnul.
  assert (Hret : forall w, exists b w', SendPid OS path w = (Normal b, w')).
  { intros w.
    destruct (handoff_cases OS path)
      as [(sfd & c & n & Hok)
         | (e & [Hs | [(sfd & Hc) | (sfd & c & Hm)]])].
    - eexists. eexists. apply (SendPid_all_succeed OS path w sfd c n Hok).
    - eexists. eexists. apply (SendPid_socket_fails OS path w e Hs).
    - eexists. eexists. apply (SendPid_connect_fails OS path w sfd e Hc).
    - eexists. eexists. apply (SendPid_send_fails OS path w sfd c e Hm). }
  exists (address_for OS path).
  split; [apply fill_address_init|].
  unfold address_for. cbn [sun_path].
  fold (truncated path (sizeof_sun_path OS - 1)).
  set (p := truncated path (sizeof_sun_path OS - 1)) in *.
  split; [rewrite length_app, repeat_length; lia|].
  split.
  { rewrite nth_error_app2 by lia. apply nth_error_repeat. lia. }
  split; [apply c_str_of_padded; exact Hnul|].
  split.
  { rewrite c_str_of_padded by exact Hnul.
    rewrite length_string_of_list_ascii. exact Hlen. }
  split; [exact Hret|].
  intros w. destruct (Hret w) as (b & w' & E). rewrite E. discriminate.
Qed.

(** On a platform with a four-byte array the path [/tmp/s] is cut to [/tm],
    and the array handed to [connect] ends in NUL. *)
Example long_path_is_cut :
  fill_address Sample.tiny (address_init Sample.tiny) "/tmp/s"
  = Some {| sun_family := AF_UNIX;
            sun_path := ["/"; "t"; "m"; NUL]%char |}.
Proof. reflexivity. Qed.

(** The copy that the program does not make: all of [sizeof(sun_path)]
    bytes of a long path would leave no terminator, and one byte more would
    leave the array. *)
Example full_size_copy_is_not_terminated :
  strncpy (sun_path (address_init Sample.tiny)) "/tmp/s" 4
  = Some ["/"; "t"; "m"; "p"]%char.
Proof. reflexivity. Qed.

Example oversize_copy_leaves_the_array :
  strncpy (sun_path (address_init Sample.tiny)) "/tmp/s" 5 = None.
Proof. reflexivity. Qed.

(** ** Concrete runs *)

(** The three failure kinds and the success, on the sample environments. *)
Example handoff_without_descriptor :
  socket_fails Sample.no_descriptor Sample.EMFILE /\
  SendPid Sample.no_descriptor "/tmp/crash.sock" Sample.start =
    (Normal false,
     {| w_errno := Sample.EMFILE;
        w_trace :=
          [EvSocket AF_UNIX SOCK_DGRAM 0 (-1);
           EvStderr ("socket() failed: Too many open files" ++ nl)] |}).
Proof. split; reflexivity. Qed.

Example handoff_connect_refused :
  connect_fails Sample.no_listener "/tmp/crash.sock" 3 Sample.ENOENT /\
  fst (SendPid Sample.no_listener "/tmp/crash.sock" Sample.start)
    = Normal false /\
  stderr_of (w_trace (snd (SendPid Sample.no_listener "/tmp/crash.sock"
                                   Sample.start)))
    = [("connect() failed: No such file or directory" ++ nl)%string] /\
  closed_of (w_trace (snd (SendPid Sample.no_listener "/tmp/crash.sock"
                                   Sample.start)))
    = [3].
Proof. repeat split; reflexivity. Qed.

Example handoff_send_refused :
  send_fails Sample.listener_gone "/tmp/crash.sock" 3 0 Sample.ECONNREFUSED /\
  fst (SendPid Sample.listener_gone "/tmp/crash.sock" Sample.start)
    = Normal false /\
  stderr_of (w_trace (snd (SendPid Sample.listener_gone "/tmp/crash.sock"
                                   Sample.start)))
    = [("sendmsg() failed: Connection refused" ++ nl)%string] /\
  datagrams_of (w_trace (snd (SendPid Sample.listener_gone "/tmp/crash.sock"
                                      Sample.start)))
    = [] /\
  closed_of (w_trace (snd (SendPid Sample.listener_gone "/tmp/crash.sock"
                                   Sample.start)))
    = [3].
Proof. repeat split; reflexivity. Qed.

Example handoff_delivered :
  SendPid Sample.tiny "/s" Sample.start =
    (Normal true,
     {| w_errno := 0;
        w_trace :=
          [EvSocket AF_UNIX SOCK_DGRAM 0 3;
           EvConnect 3 {| sun_family := AF_UNIX;
                          sun_path := ["/"; "s"; NUL; NUL]%char |} 6 0;
           EvSendmsg 3 msg 0 1;
           EvClose 3] |}).
Proof. reflexivity. Qed.

(** The whole program, with the recursion generator of the spec. *)
Example run_without_arguments :
  fst (Sample.run Sample.listening ["crasher"]) = Faulted /\
  stderr_of (w_trace (snd (Sample.run Sample.listening ["crasher"])))
    = [("pid=4711" ++ nl)%string; ("Crashing as requested." ++ nl)%string] /\
  frames_of (w_trace (snd (Sample.run Sample.listening ["crasher"])))
    = [16; 15; 14; 13; 12; 11; 10; 9; 8; 7; 6; 5; 4; 3; 2; 1; 0].
Proof. repeat split; vm_compute; reflexivity. Qed.

Example run_nocrash :
  Sample.run Sample.listening ["crasher"; "--nocrash"] =
    (Exited 0,
     {| w_errno := 0;
        w_trace := [EvStderr ("pid=4711" ++ nl);
                    EvStderr ("Doing normal exit" ++ nl)] |}).
Proof. vm_compute. reflexivity. Qed.

Example run_sendpid_without_listener :
  fst (Sample.run Sample.no_listener ["crasher"; "--sendpid"; "/tmp/crash.sock"])
    = Exited 0 /\
  stderr_of (w_trace (snd (Sample.run Sample.no_listener
                             ["crasher"; "--sendpid"; "/tmp/crash.sock"])))
    = [("pid=4711" ++ nl)%string;
       ("connect() failed: No such file or directory" ++ nl)%string].
Proof. split; vm_compute; reflexivity. Qed.

Example run_sendpid_with_listener :
  fst (Sample.run Sample.listening ["crasher"; "--sendpid"; "/tmp/crash.sock"])
    = Faulted /\
  datagrams_of (w_trace (snd (Sample.run Sample.listening
                                ["crasher"; "--sendpid"; "/tmp/crash.sock"])))
    = [[NUL]] /\
  stderr_of (w_trace (snd (Sample.run Sample.listening
                             ["crasher"; "--sendpid"; "/tmp/crash.sock"])))
    = [("pid=4711" ++ nl)%string; ("Crashing as requested." ++ nl)%string].
Proof. repeat split; vm_compute; reflexivity. Qed.

(** * Further properties of the program *)

(** ** Every run of [PrepareBelow] follows one of six paths *)

Lemma PrepareBelow_follows_a_path
    (OS : os) (argc : Z) (argv : list string) (w : world) :
  exists (o : outcome unit) (e' : Z) (evs : list event),
    PrepareBelow OS argc argv w =
      (o, {| w_errno := e'; w_trace := w_trace w ++ evs |}) /\
    PrepareBelow_path OS argc argv (w_errno w) o e' evs.
Proof.
  destruct ((argc =? 2) && (strcmp (arg argv 1) "--nocrash" =? 0)) eqn:E1.
  { apply andb_true_iff in E1. destruct E1 as [Hc Ha].
    apply Z.eqb_eq in Hc, Ha. apply strcmp_zero_iff in Ha.
    eexists. eexists. eexists. split; [|apply path_nocrash; eassumption].
    rewrite (PrepareBelow_nocrash OS argc argv w Hc Ha).
    tidy_trace. reflexivity. }
  destruct ((argc =? 3) && (strcmp (arg argv 1) "--sendpid" =? 0)) eqn:E2.
  { apply andb_true_iff in E2. destruct E2 as [Hc Ha].
    apply Z.eqb_eq in Hc, Ha. apply strcmp_zero_iff in Ha.
    pose proof (PrepareBelow_sendpid OS argc argv w Hc Ha) as Hrun.
    destruct (handoff_cases OS (arg argv 2))
      as [(sfd & c & n & Hok)
         | (e & [Hs | [(sfd & Hf) | (sfd & c & Hm)]])].
    - rewrite (SendPid_all_succeed OS _ _ sfd c n Hok) in Hrun.
      eexists. eexists. eexists.
      split; [|apply (path_sent OS argc argv _ sfd c n); eassumption].
      rewrite Hrun. tidy_trace. reflexivity.
    - rewrite (SendPid_socket_fails OS _ _ e Hs) in Hrun.
      eexists. eexists. eexists.
      split; [|apply (path_no_socket OS argc argv _ e); eassumption].
      rewrite Hrun. tidy_trace. reflexivity.
    - rewrite (SendPid_connect_fails OS _ _ sfd e Hf) in Hrun.
      eexists. eexists. eexists.
      split; [|apply (path_no_connect OS argc argv _ sfd e); eassumption].
      rewrite Hrun. tidy_trace. reflexivity.
    - rewrite (SendPid_send_fails OS _ _ sfd c e Hm) in Hrun.
      eexists. eexists. eexists.
      split; [|apply (path_no_send OS argc argv _ sfd c e); eassumption].
      rewrite Hrun. tidy_trace. reflexivity. }
  eexists. eexists. eexists. split.
  - rewrite (PrepareBelow_neither OS argc argv w E1 E2).
    tidy_trace. reflexivity.
  - apply path_no_mode.
    + intros [Hc Ha]. subst argc.
      assert (E : strcmp (arg argv 1) "--nocrash" = 0)
        by (apply strcmp_zero_iff; exact Ha).
      rewrite E in E1. discriminate E1.
    + intros [Hc Ha]. subst argc.
      assert (E : strcmp (arg argv 1) "--sendpid" = 0)
        by (apply strcmp_zero_iff; exact Ha).
      rewrite E in E2. discriminate E2.
Qed.

Ltac distinct_lines H :=
  unfold pid_line, crashing_line, failure_line, normal_exit_line in H;
  simpl in H; discriminate H.

(** X1: the crash diagnostic tells the truth.  On every path
    [PrepareBelow] writes exactly two lines to the error stream; "Crashing
    as requested." is one of them exactly when [PrepareBelow] returns (so
    that [main] goes on to the recursion generator), and it is then the last
    thing done before the return; on the paths that end in [exit] it is not
    written. *)
Theorem crash_line_iff_return
    (OS : os) (argc : Z) (argv : list string) (w : world) :
  exists (o : outcome unit) (w' : world) (evs : list event),
    PrepareBelow OS argc argv w = (o, w') /\
    w_trace w' = w_trace w ++ evs /\
    List.length (stderr_of evs) = 2%nat /\
    (o = Normal tt <-> In crashing_line (stderr_of evs)) /\
    (o = Exited 0 <-> ~ In crashing_line (stderr_of evs)) /\
    (o = Normal tt ->
     exists before, evs = before ++ [EvStderr crashing_line]).
Proof.
  destruct (PrepareBelow_follows_a_path OS argc argv w)
    as (o & e' & evs & Hrun & Hpath).
  exists o. eexists. exists evs. split; [exact Hrun|].
  split; [reflexivity|].
  destruct Hpath; cbn [stderr_of flat_map app].
  - split; [reflexivity|]. split; [|split].
    + split; [discriminate|].
      intros [Hin|[Hin|[]]]; distinct_lines Hin.
    + split; [|reflexivity].
      intros _ [Hin|[Hin|[]]]; distinct_lines Hin.
    + discriminate.
  - split; [reflexivity|]. split; [|split].
    + split; [intros _; right; left; reflexivity | reflexivity].
    + split; [discriminate|].
      intros Hin. exfalso. apply Hin. right. left. reflexivity.
    + intros _. exists [EvStderr (pid_line OS)]. reflexivity.
  - split; [reflexivity|]. split; [|split].
    + split; [intros _; right; left; reflexivity | reflexivity].
    + split; [discriminate|].
      intros Hin. exfalso. apply Hin. right. left. reflexivity.
    + intros _. eexists [_; _; _; _; _]. reflexivity.
  - split; [reflexivity|]. split; [|split].
    + split; [discriminate|].
      intros [Hin|[Hin|[]]]; distinct_lines Hin.
    + split; [|reflexivity].
      intros _ [Hin|[Hin|[]]]; distinct_lines Hin.
    + discriminate.
  - split; [reflexivity|]. split; [|split].
    + split; [discriminate|].
      intros [Hin|[Hin|[]]]; distinct_lines Hin.
    + split; [|reflexivity].
      intros _ [Hin|[Hin|[]]]; distinct_lines Hin.
    + discriminate.
  - split; [reflexivity|]. split; [|split].
    + split; [discriminate|].
      intros [Hin|[Hin|[]]]; distinct_lines Hin.
    + split; [|reflexivity].
      intros _ [Hin|[Hin|[]]]; distinct_lines Hin.
    + discriminate.
Qed.



(** ** The calls of [SendPid] *)



(** ** Long and short socket paths *)

Lemma length_list_ascii_of_string (s : string) :
  List.length (list_ascii_of_string s) = String.length s.
Proof. induction s as [|ch s IH]; simpl; [reflexivity | now rewrite IH]. Qed.

Lemma prefix_of_firstn (n : nat) :
  forall l : list ascii,
    String.prefix (string_of_list_ascii (firstn n l)) (string_of_list_ascii l)
    = true.
Proof.
  induction n as [|n IH]; intros l.
  - simpl. destruct (string_of_list_ascii l); reflexivity.
  - destruct l as [|ch l]; simpl; [reflexivity|].
    destruct (ascii_dec ch ch) as [_|Hne]; [apply IH | now elim Hne].
Qed.

(** X6: two socket paths that agree on their first [sizeof(sun_path) - 1]
    bytes are the same path to [SendPid]: from every state it makes the same
    calls with the same address and gives the same result for both. *)
Theorem paths_with_same_prefix_collide
    (OS : os) (path1 path2 : string) (w : world) :
  truncated path1 (sizeof_sun_path OS - 1)
    = truncated path2 (sizeof_sun_path OS - 1) ->
  SendPid OS path1 w = SendPid OS path2 w.
Proof.
  intros H.
  assert (E : address_for OS path1 = address_for OS path2)
    by (unfold address_for; rewrite H; reflexivity).
  unfold SendPid. rewrite !fill_address_init, E. reflexivity.
Qed.

Lemma paths_with_same_prefix_collide_witness :
  "/tmp/a"%string <> "/tmp/b"%string /\
  truncated "/tmp/a" (sizeof_sun_path Sample.tiny - 1)
    = truncated "/tmp/b" (sizeof_sun_path Sample.tiny - 1) /\
  SendPid Sample.tiny "/tmp/a" Sample.start
    = SendPid Sample.tiny "/tmp/b" Sample.start.
Proof.
  split; [discriminate|]. split; [reflexivity|].
  apply (paths_with_same_prefix_collide
           Sample.tiny "/tmp/a" "/tmp/b" Sample.start).
  reflexivity.
Defined.

(** X7: a socket path of at most [sizeof(sun_path) - 1] bytes reaches
    [connect] whole: the string held by the address is the path. *)
Theorem short_path_is_kept (OS : os) (path : string) :
  (String.length (c_str path) <= sizeof_sun_path OS - 1)%nat ->
  exists address : sockaddr_un,
    fill_address OS (address_init OS) path = Some address /\
    c_str (string_of_list_ascii (sun_path address)) = c_str path.
Proof.
  intros Hlen. exists (address_for OS path).
  split; [apply fill_address_init|].
  unfold address_for. cbn [sun_path].
  rewrite c_str_of_padded by apply truncated_has_no_nul.
  unfold truncated. rewrite firstn_all2.
  - apply string_of_list_ascii_of_string.
  - rewrite length_list_ascii_of_string. exact Hlen.
Qed.

Lemma short_path_is_kept_witness :
  (String.length (c_str "/tmp/crash.sock")
   <= sizeof_sun_path Sample.listening - 1)%nat /\
  exists address : sockaddr_un,
    fill_address Sample.listening (address_init Sample.listening)
      "/tmp/crash.sock" = Some address /\
    c_str (string_of_list_ascii (sun_path address)) = c_str "/tmp/crash.sock".
Proof.
  split.
  - vm_compute. lia.
  - apply (short_path_is_kept Sample.listening "/tmp/crash.sock").
    vm_compute. lia.
Defined.

(** X8: a longer socket path is cut without any report.  The string held
    by the address is a proper prefix of the path, exactly
    [sizeof(sun_path) - 1] bytes long, and [SendPid] goes on to [connect]
    to it: the only writes to the error stream remain those of a failed
    system call. *)
Theorem long_path_is_cut_silently (OS : os) (path : string) (w : world) :
  (sizeof_sun_path OS - 1 < String.length (c_str path))%nat ->
  exists address : sockaddr_un,
    fill_address OS (address_init OS) path = Some address /\
    String.length (c_str (string_of_list_ascii (sun_path address)))
      = (sizeof_sun_path OS - 1)%nat /\
    String.prefix (c_str (string_of_list_ascii (sun_path address)))
                  (c_str path) = true /\
    c_str (string_of_list_ascii (sun_path address)) <> c_str path /\
    (forall sfd c n, all_succeed OS path sfd c n ->
       SendPid OS path w =
         (Normal true,
          {| w_errno := w_errno w;
             w_trace := w_trace w ++
               [EvSocket AF_UNIX SOCK_DGRAM 0 (Z.of_N sfd);
                EvConnect (Z.of_N sfd) address
                          (sizeof_sockaddr_un OS) (Z.of_N c);
                EvSendmsg (Z.of_N sfd) msg 0 (Z.of_N n);
                EvClose (Z.of_N sfd)] |})).
Proof.
  intros Hlen. exists (address_for OS path).
  split; [apply fill_address_init|].
  assert (Hstr : c_str (string_of_list_ascii (sun_path (address_for OS path)))
                 = string_of_list_ascii
                     (truncated path (sizeof_sun_path OS - 1))).
  { unfold address_for. cbn [sun_path].
    apply c_str_of_padded, truncated_has_no_nul. }
  assert (Hl : String.length
                 (string_of_list_ascii
                    (truncated path (sizeof_sun_path OS - 1)))
               = (sizeof_sun_path OS - 1)%nat).
  { rewrite length_string_of_list_ascii. unfold truncated.
    rewrite length_firstn, length_list_ascii_of_string. lia. }
  rewrite Hstr.
  split; [exact Hl|]. split; [|split].
  - unfold truncated.
    rewrite <- (string_of_list_ascii_of_string (c_str path)) at 2.
    apply prefix_of_firstn.
  - intros E. rewrite E in Hl. lia.
  - intros sfd c n Hok. apply (SendPid_all_succeed OS path w sfd c n Hok).
Qed.

Lemma long_path_is_cut_silently_witness :
  (sizeof_sun_path Sample.tiny - 1 < String.length (c_str "/tmp/s"))%nat /\
  exists address : sockaddr_un,
    fill_address Sample.tiny (address_init Sample.tiny) "/tmp/s"
      = Some address /\
    String.length (c_str (string_of_list_ascii (sun_path address)))
      = (sizeof_sun_path Sample.tiny - 1)%nat /\
    String.prefix (c_str (string_of_list_ascii (sun_path address)))
                  (c_str "/tmp/s") = true /\
    c_str (string_of_list_ascii (sun_path address)) <> c_str "/tmp/s" /\
    (forall sfd c n, all_succeed Sample.tiny "/tmp/s" sfd c n ->
       SendPid Sample.tiny "/tmp/s" Sample.start =
         (Normal true,
          {| w_errno := w_errno Sample.start;
             w_trace := w_trace Sample.start ++
               [EvSocket AF_UNIX SOCK_DGRAM 0 (Z.of_N sfd);
                EvConnect (Z.of_N sfd) address
                          (sizeof_sockaddr_un Sample.tiny) (Z.of_N c);
                EvSendmsg (Z.of_N sfd) msg 0 (Z.of_N n);
                EvClose (Z.of_N sfd)] |})).
Proof.
  split.
  - vm_compute. lia.
  - apply (long_path_is_cut_silently Sample.tiny "/tmp/s" Sample.start).
    vm_compute. lia.
Defined.

(** ** Reading the pid off the error stream *)

Lemma string_length_append (s t : string) :
  String.length (s ++ t) = (String.length s + String.length t)%nat.
Proof. induction s as [|ch s IH]; simpl; [reflexivity | now rewrite IH]. Qed.

Lemma append_cancel_r (t : string) :
  forall a b : string, (a ++ t = b ++ t)%string -> a = b.
Proof.
  induction a as [|ch a IH]; intros [|ch' b] H; simpl in H.
  - reflexivity.
  - apply (f_equal String.length) in H. simpl in H.
    rewrite string_length_append in H. lia.
  - apply (f_equal String.length) in H. simpl in H.
    rewrite string_length_append in H. lia.
  - injection H as -> H. f_equal. now apply IH.
Qed.

(** Two integers with the same decimal text are equal. *)
Lemma show_int_inj (z1 z2 : Z) : show_int z1 = show_int z2 -> z1 = z2.
Proof.
  unfold show_int. intros H.
  assert (Hnil : forall z, Z.to_int z <> Decimal.Pos Decimal.Nil /\
                           Z.to_int z <> Decimal.Neg Decimal.Nil).
  { intros [|p|p]; simpl; split; try discriminate;
      intros [= E]; now apply (Unsigned.to_uint_nonnil p). }
  apply DecimalZ.to_int_inj.
  assert (E : Some (Z.to_int z1) = Some (Z.to_int z2)).
  { rewrite <- (NilZero.isi (Z.to_int z1)) by apply Hnil.
    rewrite <- (NilZero.isi (Z.to_int z2)) by apply Hnil.
    now rewrite H. }
  now injection E.
Qed.

Lemma first_line_is_pid_line
    (OS : os) (argc : Z) (argv : list string) (e : Z) :
  hd_error (stderr_of (w_trace (snd (PrepareBelow OS argc argv
                                       {| w_errno := e; w_trace := [] |}))))
  = Some (pid_line OS).
Proof.
  destruct (PrepareBelow_follows_a_path OS argc argv
              {| w_errno := e; w_trace := [] |})
    as (o & e' & evs & Hrun & Hpath).
  rewrite Hrun. cbn [snd w_trace app].
  destruct Hpath; reflexivity.
Qed.

(** X9: the pid can be read off the error stream.  If two fresh processes,
    under any arguments and any operating system, begin their error output
    with the same line, they have the same process id: the first line
    determines the number [getpid] returned. *)
Theorem first_line_determines_pid
    (OS1 OS2 : os) (argc1 argc2 : Z) (argv1 argv2 : list string)
    (e1 e2 : Z) :
  hd_error (stderr_of (w_trace (snd (PrepareBelow OS1 argc1 argv1
                                       {| w_errno := e1; w_trace := [] |}))))
  = hd_error (stderr_of (w_trace (snd (PrepareBelow OS2 argc2 argv2
                                       {| w_errno := e2; w_trace := [] |}))))
  ->
  os_pid OS1 = os_pid OS2.
Proof.
  rewrite !first_line_is_pid_line. intros [= H].
  unfold pid_line in H. simpl in H.
  apply append_cancel_r in H. now apply show_int_inj.
Qed.

Lemma first_line_determines_pid_witness :
  hd_error (stderr_of (w_trace (snd (PrepareBelow Sample.listening 1
                                       ["crasher"]
                                       {| w_errno := 0; w_trace := [] |}))))
  = hd_error (stderr_of (w_trace (snd (PrepareBelow Sample.no_listener 3
                                       ["crasher"; "--sendpid"; "/tmp/s"]
                                       {| w_errno := 0; w_trace := [] |}))))
  /\ os_pid Sample.listening = os_pid Sample.no_listener.
Proof.
  split; [vm_compute; reflexivity|].
  apply (first_line_determines_pid
           Sample.listening Sample.no_listener 1 3
           ["crasher"] ["crasher"; "--sendpid"; "/tmp/s"] 0 0).
  vm_compute. reflexivity.
Defined.
